(** * The block-range transaction extractor of [assets/transactions.py]

    A shallow embedding of the Dagster asset [ethereum_transactions_recent]
    and of [_get_w3], followed by the properties of the extraction contract:
    the fetched block window, the record count and order, the treatment of
    the EIP-1559 fee fields, the behaviour on errors, and the output path.

    Python [int] is [Z]; [str] is [string]; [os.environ] is a finite map from
    names to values, taken as the asset finds it (that is, after the
    [load_dotenv()] of the module); the JSON-RPC node behind a URL is a
    record of the two answers the asset asks for; exceptions are the left
    summand of a sum; the effects of a run (RPC calls, log lines, the files
    it leaves) are threaded through a small monad. A [DataFrame] built from
    the list of row dictionaries is a list of rows again, with the fee
    columns stored as pandas stores them. *)

From Stdlib Require Import ZArith List Ascii String Sorted Lia.
From stdpp Require Import base option gmap strings list list_numbers sorting pretty.

Local Open Scope Z_scope.

(** ** Exceptions *)

(** What a failed JSON-RPC request raises inside web3 (the HTTP provider is
    built with a 60 second timeout). The payload is kept so that a theorem
    can say that the very same exception reaches the caller. *)
Inductive rpc_error : Type :=
| RpcTimeout
| RpcConnectionError (msg : string)
| RpcBadResponse (msg : string)
| RpcBlockNotFound (n : Z).

Inductive exn : Type :=
| KeyError (key : string)          (* os.environ[key], key missing *)
| ValueError (literal : string)    (* int(literal), literal not an integer *)
| TimestampError (ts : Z)          (* datetime.fromtimestamp out of range *)
| ProviderError (e : rpc_error)    (* raised by a w3.eth call *)
| OverflowError.                   (* df.to_parquet, integer beyond 64 bits *)

(** ** Python built-ins used by the asset *)

Module Py.

(** ASCII characters that [int] skips around a literal: 0x09-0x0D and the
    space. *)
Definition is_space (c : ascii) : bool :=
  let n := nat_of_ascii c in
  ((9 <=? n)%nat && (n <=? 13)%nat) || (n =? 32)%nat.

(** The string holds ASCII characters only. *)
Fixpoint is_ascii (s : string) : bool :=
  match s with
  | EmptyString => true
  | String c s' => (nat_of_ascii c <? 128)%nat && is_ascii s'
  end.

Definition digit_of (c : ascii) : option Z :=
  let n := nat_of_ascii c in
  if ((48 <=? n)%nat && (n <=? 57)%nat) then Some (Z.of_nat n - 48) else None.

Fixpoint lstrip (s : string) : string :=
  match s with
  | EmptyString => EmptyString
  | String c s' => if is_space c then lstrip s' else s
  end.

Fixpoint all_space (s : string) : bool :=
  match s with
  | EmptyString => true
  | String c s' => is_space c && all_space s'
  end.

Definition starts_with_digit (s : string) : bool :=
  match s with
  | String c _ => bool_decide (is_Some (digit_of c))
  | EmptyString => false
  end.

(** The digits of a base-10 literal, read left to right. A single underscore
    is allowed between two digits; trailing white space ends the literal. *)
Fixpoint int_digits (acc : Z) (s : string) : option Z :=
  match s with
  | EmptyString => Some acc
  | String c s' =>
      match digit_of c with
      | Some d => int_digits (acc * 10 + d) s'
      | None =>
          if Ascii.eqb c "_"
          then (if starts_with_digit s' then int_digits acc s' else None)
          else (if all_space s then Some acc else None)
      end
  end.

(** [int(s)] for a string [s] of ASCII characters, base 10: surrounding
    white space is dropped, one sign may precede the digits, at least one
    digit is required. A string with a character outside ASCII is rejected
    here, whereas Python consults the Unicode tables for digits and spaces:
    what is stated below of a rejected literal is stated of ASCII literals.
    (The cap that recent CPython releases put on the number of digits is
    left out.) *)
Definition int (s : string) : exn + Z :=
  let body := lstrip s in
  let '(sign, ds) :=
    match body with
    | String "-" r => (-1, r)
    | String "+" r => (1, r)
    | _ => (1, body)
    end in
  if starts_with_digit ds
  then match int_digits 0 ds with
       | Some n => inr (sign * n)
       | None => inl (ValueError s)
       end
  else inl (ValueError s).

(** [range(lo, hi)]: the integers from [lo] up to [hi - 1], ascending; empty
    when [hi <= lo]. *)
Definition range (lo hi : Z) : list Z := seqZ lo (hi - lo).

(** [os.getenv(key, default)] *)
Definition getenv (environ : gmap string string) (key default : string) : string :=
  match environ !! key with
  | Some v => v
  | None => default
  end.

(** [os.environ[key]] *)
Definition environ_get (environ : gmap string string) (key : string) : exn + string :=
  match environ !! key with
  | Some v => inr v
  | None => inl (KeyError key)
  end.

End Py.

(** ** [datetime.fromtimestamp(ts, tz=timezone.utc).isoformat()]

    The calendar arithmetic follows CPython's [datetime] module: the
    proleptic Gregorian ordinal of a day (day 1 is 0001-01-01) is split into
    year, month and day as [_ord2ymd] does. *)

Module Datetime.

Definition DI400Y : Z := 146097.
Definition DI100Y : Z := 36524.
Definition DI4Y : Z := 1461.

Definition DAYS_IN_MONTH : list Z :=
  [-1; 31; 28; 31; 30; 31; 30; 31; 31; 30; 31; 30; 31].
Definition DAYS_BEFORE_MONTH : list Z :=
  [-1; 0; 31; 59; 90; 120; 151; 181; 212; 243; 273; 304; 334].

Definition tbl (t : list Z) (i : Z) : Z := nth (Z.to_nat i) t 0.

Definition b2z (b : bool) : Z := if b then 1 else 0.

Definition ord2ymd (ordinal : Z) : Z * Z * Z :=
  let n := ordinal - 1 in
  let n400 := n / DI400Y in let n := n mod DI400Y in
  let year := n400 * 400 + 1 in
  let n100 := n / DI100Y in let n := n mod DI100Y in
  let n4 := n / DI4Y in let n := n mod DI4Y in
  let n1 := n / 365 in let n := n mod 365 in
  let year := year + n100 * 100 + n4 * 4 + n1 in
  if (n1 =? 4) || (n100 =? 4) then (year - 1, 12, 31)
  else
    let leapyear := (n1 =? 3) && (negb (n4 =? 24) || (n100 =? 3)) in
    let month := Z.shiftr (n + 50) 5 in
    let preceding := tbl DAYS_BEFORE_MONTH month + b2z ((2 <? month) && leapyear) in
    let '(month, preceding) :=
      if n <? preceding
      then (month - 1,
            preceding - (tbl DAYS_IN_MONTH (month - 1)
                         + b2z ((month - 1 =? 2) && leapyear)))
      else (month, preceding) in
    (year, month, n - preceding + 1).

(** Ordinal of 1970-01-01. *)
Definition EPOCH_ORDINAL : Z := 719163.

(** Seconds since the epoch of 0001-01-01T00:00:00 and 9999-12-31T23:59:59,
    the first and last instants a [datetime] can hold. *)
Definition MIN_TS : Z := -62135596800.
Definition MAX_TS : Z := 253402300799.

(** Decimal rendering, zero-padded on the left to [width] characters
    (the [%0<width>d] of [isoformat]); the argument is never negative here. *)
Definition zpad (width : nat) (n : Z) : string :=
  let s := pretty n in
  String.concat "" (replicate (width - String.length s) "0") +:+ s.

(** The ISO-8601 text of the UTC instant [ts] seconds after the epoch; the
    timestamp is an integer, so there is no fractional part. *)
Definition isoformat_utc (ts : Z) : exn + string :=
  if (MIN_TS <=? ts) && (ts <=? MAX_TS) then
    let days := ts / 86400 in
    let secs := ts mod 86400 in
    let '(y, m, d) := ord2ymd (days + EPOCH_ORDINAL) in
    let hh := secs / 3600 in
    let mm := (secs mod 3600) / 60 in
    let ss := secs mod 60 in
    inr (zpad 4 y +:+ "-" +:+ zpad 2 m +:+ "-" +:+ zpad 2 d +:+ "T"
         +:+ zpad 2 hh +:+ ":" +:+ zpad 2 mm +:+ ":" +:+ zpad 2 ss +:+ "+00:00")
  else inl (TimestampError ts).

End Datetime.

(** ** The data model *)

(** A transaction as web3 hands it over (an [AttributeDict], typed
    [TxData] by web3: optional keys, integer fees). The two EIP-1559
    attributes exist only on transactions of the newer type: [None] stands
    for an attribute that is absent, which is what [getattr(tx, name, None)]
    probes, and [Some v] for one that is present with the integer [v].
    [tx_to] is [None] for a contract creation (the attribute is present and
    holds Python's [None]). The numeric attributes are integers already, so
    the [int(...)] around them changes nothing. *)
Record Transaction : Type := {
  tx_hash : list Byte.byte;
  tx_from : string;
  tx_to : option string;
  tx_value : Z;
  tx_gas : Z;
  tx_maxFeePerGas : option Z;
  tx_maxPriorityFeePerGas : option Z;
  tx_nonce : Z;
  tx_transactionIndex : Z
}.

(** A block fetched with [full_transactions=True]. *)
Record Block : Type := {
  timestamp : Z;
  transactions : list Transaction
}.

(** The node behind an endpoint, as far as the asset can observe it: the
    answer to [eth_blockNumber] and, for each number, the answer to
    [eth_getBlockByNumber]. Either request may fail. *)
Record Provider : Type := {
  eth_block_number : rpc_error + Z;
  eth_get_block : Z -> rpc_error + Block
}.

(** The value under a fee key: Python's [None], a Python [int], or, once
    pandas has turned a column that mixes the two into [float64], the
    float whose value is the integer [v] (a null is then NaN, still
    [Null] here). *)
Inductive Cell : Type :=
| Null
| IntCell (v : Z)
| Float64 (v : Z).

(** One row of the output: the dictionary appended to [rows], and later the
    row of the frame, with the source's keys as field names. For [to],
    [None] is Python's [None] (a null cell). *)
Record TransactionRecord : Type := {
  block_number : Z;
  block_timestamp : string;
  hash : string;
  from : string;
  to : option string;
  value_wei : Z;
  gas : Z;
  max_fee_per_gas : Cell;
  max_priority_fee_per_gas : Cell;
  nonce : Z;
  transaction_index : Z
}.

(** The preview shown in the Dagster UI: the text [(no rows)] for an empty
    frame, otherwise the table of [df.head(10)]. *)
Inductive Preview : Type :=
| NoRows
| Head (rows : list TransactionRecord).

(** The metadata of the returned [MaterializeResult]. *)
Record MaterializeResult : Type := {
  blocks_scanned : Z;
  latest_block : Z;
  num_transactions : nat;
  preview : Preview;
  file : string
}.

(** ** Effects *)

(** The part of the file system the asset touches: the directories that
    exist and the Parquet files, each holding the rows of the frame written
    to it. Writing is taken to succeed. *)
Record FS : Type := {
  dirs : gset string;
  files : gmap string (list TransactionRecord)
}.

Inductive LogMessage : Type :=
| Fetching (start_block latest_block : Z)
| Processed (block_num : Z) (rows : nat).

(** What the asset does besides touching files, in order: its calls to
    [w3.eth], each with the outcome the call had, and its log lines. These
    are the calls of the asset, not the HTTP requests on the wire: web3
    sends requests only inside such a call, and its transport may send a
    failing request again before the call gives up. *)
Inductive Event : Type :=
| RpcBlockNumber (r : rpc_error + Z)
| RpcGetBlock (block_num : Z) (r : rpc_error + Block)
| LogInfo (m : LogMessage).

(** A computation reads and updates the file system, emits events, and
    either raises or returns. After an exception nothing more happens: the
    events and the file system are those reached when it was raised. *)
Definition M (A : Type) : Type := FS -> list Event * FS * (exn + A).

Definition ret {A} (a : A) : M A := fun fs => ([], fs, inr a).

Definition bind {A B} (m : M A) (k : A -> M B) : M B :=
  fun fs =>
    match m fs with
    | (t, fs', inl e) => (t, fs', inl e)
    | (t, fs', inr a) =>
        let '(t', fs'', r) := k a fs' in (t ++ t', fs'', r)
    end.

Notation "'do' x <- m ; k" := (bind m (fun x => k))
  (at level 10, x name, m at level 100, k at level 200).
Notation "'do' '_' <- m ; k" := (bind m (fun _ => k))
  (at level 10, m at level 100, k at level 200).

(** An exception of a pure built-in, or its value. *)
Definition lift {A} (r : exn + A) : M A := fun fs => ([], fs, r).

Definition emit (e : Event) : M unit := fun fs => ([e], fs, inr tt).

Definition log_info (m : LogMessage) : M unit := emit (LogInfo m).

Definition when (b : bool) (m : M unit) : M unit := if b then m else ret tt.

(** [for x in xs: s = body(s, x)] *)
Fixpoint for_each {A S} (body : S -> A -> M S) (xs : list A) (s : S) : M S :=
  match xs with
  | [] => ret s
  | x :: xs' => do s' <- body s x; for_each body xs' s'
  end.

(** [w3.eth.block_number] *)
Definition block_number_call (w3 : Provider) : M Z :=
  fun fs =>
    let r := eth_block_number w3 in
    ([RpcBlockNumber r], fs,
     match r with inl e => inl (ProviderError e) | inr n => inr n end).

(** [w3.eth.get_block(block_num, full_transactions=True)] *)
Definition get_block (w3 : Provider) (block_num : Z) : M Block :=
  fun fs =>
    let r := eth_get_block w3 block_num in
    ([RpcGetBlock block_num r], fs,
     match r with inl e => inl (ProviderError e) | inr b => inr b end).

(** [os.makedirs(path, exist_ok=True)] for the three-component path of the
    asset: the directory and its two ancestors exist afterwards. *)
Definition makedirs_out_dir : M unit :=
  fun fs =>
    ([], {| dirs := {[ "data"; "data/ethereum"; "data/ethereum/transactions" ]}
                      ∪ dirs fs;
            files := files fs |}, inr tt).

(** [float(v)] for a Python [int]: the nearest float64, ties to even, as
    the integer it denotes. Integers of at most 53 bits are kept. *)
Definition float_of_int (v : Z) : Z :=
  let a := Z.abs v in
  let e := Z.log2 a - 52 in
  if e <=? 0 then v
  else
    let q := Z.shiftr a e in
    let r := a mod 2 ^ e in
    let half := 2 ^ (e - 1) in
    let q' := if (half <? r) || ((r =? half) && Z.odd q) then q + 1 else q in
    Z.sgn v * (q' * 2 ^ e).

Definition is_null (c : Cell) : bool :=
  match c with Null => true | _ => false end.

(** A column of the list of dictionaries holds both [None] and integers;
    pandas stores such a column as [float64]. *)
Definition mixed (col : list Cell) : bool :=
  existsb is_null col && existsb (fun c => negb (is_null c)) col.

(** A cell of a column that pandas stores as [float64] ([as_float]) or
    leaves as it is. *)
Definition coerce (as_float : bool) (c : Cell) : Cell :=
  match c with
  | IntCell v => if as_float then Float64 (float_of_int v) else IntCell v
  | _ => c
  end.

Definition coerce_row (f1 f2 : bool) (r : TransactionRecord) : TransactionRecord :=
  {| block_number := block_number r;
     block_timestamp := block_timestamp r;
     hash := hash r;
     from := from r;
     to := to r;
     value_wei := value_wei r;
     gas := gas r;
     max_fee_per_gas := coerce f1 (max_fee_per_gas r);
     max_priority_fee_per_gas := coerce f2 (max_priority_fee_per_gas r);
     nonce := nonce r;
     transaction_index := transaction_index r |}.

(** [pd.DataFrame(rows)] for the list of row dictionaries: one row per
    dictionary, in order. The columns that are integers in every row stay
    integers, the text columns stay text; each of the two fee columns
    becomes [float64] when it mixes [None] with integers. *)
Definition DataFrame (rows : list TransactionRecord) : list TransactionRecord :=
  map (coerce_row (mixed (map max_fee_per_gas rows))
                  (mixed (map max_priority_fee_per_gas rows))) rows.

(** An integer that a 64-bit integer column of the Parquet file can hold,
    signed or unsigned. *)
Definition fits64 (v : Z) : bool := (- 2 ^ 63 <=? v) && (v <? 2 ^ 64).

Definition cell_fits (c : Cell) : bool :=
  match c with IntCell v => fits64 v | _ => true end.

Definition row_fits (r : TransactionRecord) : bool :=
  fits64 (block_number r) && fits64 (value_wei r) && fits64 (gas r)
  && cell_fits (max_fee_per_gas r) && cell_fits (max_priority_fee_per_gas r)
  && fits64 (nonce r) && fits64 (transaction_index r).

(** [df.to_parquet(path, index=False)]: when an integer of the frame does
    not fit 64 bits the conversion raises [OverflowError] and no file is
    touched; otherwise the file at [path] now holds the rows of [df],
    whatever it held before. (The quantities of a chain are not negative;
    a column with both a negative integer and one of 2^63 or more is not
    modelled.) *)
Definition to_parquet (df : list TransactionRecord) (path : string) : M unit :=
  fun fs =>
    if forallb row_fits df
    then ([], {| dirs := dirs fs; files := <[path := df]> (files fs) |}, inr tt)
    else ([], fs, inl OverflowError).

(** ** The asset *)

Section Asset.

(** [HexBytes.hex()], the text of a transaction hash. Its exact form (with
    or without the [0x] prefix) belongs to the installed hexbytes release;
    nothing below depends on it. *)
Variable HexBytes_hex : list Byte.byte -> string.

(** The JSON-RPC node reached through each endpoint URL. Building the
    [Web3] object and its [HTTPProvider] sends nothing; requests are sent
    by the [w3.eth] calls only. *)
Variable network : string -> Provider.

Definition _get_w3 (environ : gmap string string) : M Provider :=
  do rpc_url <- lift (Py.environ_get environ "ETHEREUM_RPC_URL");
  ret (network rpc_url).

(** [getattr(tx, name, None)] for an attribute that holds an integer when
    it is there. *)
Definition getattr_or_None (attr : option Z) : Cell :=
  match attr with
  | Some v => IntCell v
  | None => Null
  end.

(** The dictionary built for one transaction [tx] of block [block_num]. *)
Definition row_of (block_num : Z) (ts_iso : string) (tx : Transaction)
  : TransactionRecord :=
  {| block_number := block_num;
     block_timestamp := ts_iso;
     hash := HexBytes_hex (tx_hash tx);
     from := tx_from tx;
     to := tx_to tx;
     value_wei := tx_value tx;
     gas := tx_gas tx;
     max_fee_per_gas := getattr_or_None (tx_maxFeePerGas tx);
     max_priority_fee_per_gas := getattr_or_None (tx_maxPriorityFeePerGas tx);
     nonce := tx_nonce tx;
     transaction_index := tx_transactionIndex tx |}.

(** The body of the loop over block numbers; [rows] is the list being
    appended to. *)
Definition fetch_block (w3 : Provider) (latest_block : Z)
    (rows : list TransactionRecord) (block_num : Z) : M (list TransactionRecord) :=
  do block <- get_block w3 block_num;
  do ts_iso <- lift (Datetime.isoformat_utc (timestamp block));
  let rows := rows ++ map (row_of block_num ts_iso) (transactions block) in
  do _ <- when ((block_num mod 5 =? 0) || (block_num =? latest_block))
            (log_info (Processed block_num (length rows)));
  ret rows.

(** The rows that the iteration for block [n] appends when it succeeds. *)
Definition block_records (w3 : Provider) (n : Z) : list TransactionRecord :=
  match eth_get_block w3 n with
  | inr b =>
      match Datetime.isoformat_utc (timestamp b) with
      | inr ts_iso => map (row_of n ts_iso) (transactions b)
      | inl _ => []
      end
  | inl _ => []
  end.

(** Block [n] can be fetched and its timestamp converted. *)
Definition block_ok (w3 : Provider) (n : Z) : Prop :=
  exists b ts_iso, eth_get_block w3 n = inr b
                   /\ Datetime.isoformat_utc (timestamp b) = inr ts_iso.

(** Row [r] of the frame is the record of transaction [t] of block [b],
    numbered [n]: every field but the two fees is taken from the
    transaction as the schema says; each fee field is null exactly when the
    transaction lacks the attribute, and otherwise holds the fee, as an
    integer or, when its column is stored as [float64] ([f1] for
    [max_fee_per_gas], [f2] for [max_priority_fee_per_gas]), as the nearest
    float. *)
Definition fields_copied (f1 f2 : bool) (r : TransactionRecord)
    (src : Z * Block * Transaction) : Prop :=
  let '(n, b, t) := src in
  block_number r = n
  /\ Datetime.isoformat_utc (timestamp b) = inr (block_timestamp r)
  /\ hash r = HexBytes_hex (tx_hash t)
  /\ from r = tx_from t
  /\ to r = tx_to t
  /\ value_wei r = tx_value t
  /\ gas r = tx_gas t
  /\ nonce r = tx_nonce t
  /\ transaction_index r = tx_transactionIndex t
  /\ (max_fee_per_gas r = Null <-> tx_maxFeePerGas t = None)
  /\ (max_priority_fee_per_gas r = Null <-> tx_maxPriorityFeePerGas t = None)
  /\ (forall v, tx_maxFeePerGas t = Some v ->
        max_fee_per_gas r
        = if f1 then Float64 (float_of_int v) else IntCell v)
  /\ (forall v, tx_maxPriorityFeePerGas t = Some v ->
        max_priority_fee_per_gas r
        = if f2 then Float64 (float_of_int v) else IntCell v).

Definition out_path (latest_block : Z) : string :=
  "data/ethereum/transactions/tx_recent_until_" +:+ pretty latest_block
    +:+ ".parquet".

Definition ethereum_transactions_recent (environ : gmap string string)
  : M MaterializeResult :=
  do w3 <- _get_w3 environ;
  do n_blocks <- lift (Py.int (Py.getenv environ "ETH_TX_RECENT_BLOCKS" "10"));
  do latest_block <- block_number_call w3;
  let start_block := Z.max 0 (latest_block - n_blocks + 1) in
  do _ <- log_info (Fetching start_block latest_block);
  do rows <- for_each (fetch_block w3 latest_block)
               (Py.range start_block (latest_block + 1)) [];
  let df := DataFrame rows in
  do _ <- makedirs_out_dir;
  do _ <- to_parquet df (out_path latest_block);
  let preview_md := match df with [] => NoRows | _ => Head (take 10 df) end in
  ret {| blocks_scanned := n_blocks;
         latest_block := latest_block;
         num_transactions := length df;
         preview := preview_md;
         file := out_path latest_block |}.

End Asset.

(** ** A small chain to run the asset on

    Head at block 100; blocks 98, 99 and 100 hold 2, 0 and 5 transactions;
    the node at [http://flaky:8545] times out on block 99; the node at
    [http://genesis:8545] has just two blocks. *)

Module Demo.

Definition hex_digit (n : N) : ascii :=
  nth (N.to_nat n) (list_ascii_of_string "0123456789abcdef") "0"%char.

(** Lower-case hexadecimal text, two digits a byte, without prefix (the
    form of hexbytes 1.x). *)
Definition hex (bs : list Byte.byte) : string :=
  string_of_list_ascii
    (flat_map (fun b => let n := Byte.to_N b in
                        [hex_digit (n / 16)%N; hex_digit (n mod 16)%N]) bs).

(** A legacy transaction ([fee = None]) or an EIP-1559 one. *)
Definition tx (idx : Z) (fee : option Z) : Transaction :=
  {| tx_hash := [Byte.xab; Byte.x00; default Byte.x00 (Byte.of_N (Z.to_N idx))];
     tx_from := "0xf39Fd6e51aad88F6F4ce6aB8827279cffFb92266";
     tx_to := if idx =? 0 then None
              else Some "0x70997970C51812dc3A010C7d01b50e0d17dc79C8";
     tx_value := 1000000000000000000 * idx;
     tx_gas := 21000;
     tx_maxFeePerGas := fee;
     tx_maxPriorityFeePerGas := option_map (fun f => f / 10) fee;
     tx_nonce := 7 + idx;
     tx_transactionIndex := idx |}.

Definition block98 : Block :=
  {| timestamp := 1700000000;
     transactions := [tx 0 None; tx 1 (Some 30000000000)] |}.
Definition block99 : Block :=
  {| timestamp := 1700000012; transactions := [] |}.
Definition block100 : Block :=
  {| timestamp := 1700000024;
     transactions := [tx 0 (Some 25000000000); tx 1 None; tx 2 None;
                      tx 3 (Some 40000000000); tx 4 None] |}.

Definition blocks (n : Z) : rpc_error + Block :=
  if n =? 98 then inr block98
  else if n =? 99 then inr block99
  else if n =? 100 then inr block100
  else if (0 <=? n) && (n <? 98)
       then inr {| timestamp := 1700000000 - 12 * (98 - n); transactions := [] |}
       else inl (RpcBlockNotFound n).

Definition node : Provider :=
  {| eth_block_number := inr 100; eth_get_block := blocks |}.

Definition flaky_node : Provider :=
  {| eth_block_number := inr 100;
     eth_get_block := fun n => if n =? 99 then inl RpcTimeout else blocks n |}.

Definition down_node : Provider :=
  {| eth_block_number := inl (RpcConnectionError "connection refused");
     eth_get_block := fun n => inl (RpcConnectionError "connection refused") |}.

Definition genesis_node : Provider :=
  {| eth_block_number := inr 1;
     eth_get_block := fun n =>
       if (0 <=? n) && (n <=? 1)
       then inr {| timestamp := 1438269973 + 15 * n; transactions := [] |}
       else inl (RpcBlockNotFound n) |}.

Definition network (url : string) : Provider :=
  if String.eqb url "http://flaky:8545" then flaky_node
  else if String.eqb url "http://down:8545" then down_node
  else if String.eqb url "http://genesis:8545" then genesis_node
  else node.

Definition environ (url n : string) : gmap string string :=
  {[ "ETHEREUM_RPC_URL" := url; "ETH_TX_RECENT_BLOCKS" := n ]}.

Definition empty_fs : FS := {| dirs := ∅; files := ∅ |}.

Definition asset := ethereum_transactions_recent hex network.

(** What the run over the last three blocks of [node] is expected to
    produce. *)
Definition rows3 : list TransactionRecord :=
  DataFrame
    (map (row_of hex 98 "2023-11-14T22:13:20+00:00") (transactions block98)
     ++ map (row_of hex 100 "2023-11-14T22:13:44+00:00")
          (transactions block100)).

Definition trace3 : list Event :=
  [RpcBlockNumber (inr 100); LogInfo (Fetching 98 100);
   RpcGetBlock 98 (inr block98); RpcGetBlock 99 (inr block99);
   RpcGetBlock 100 (inr block100); LogInfo (Processed 100 7)].

Definition result3 : MaterializeResult :=
  {| blocks_scanned := 3;
     latest_block := 100;
     num_transactions := 7;
     preview := Head rows3;
     file := "data/ethereum/transactions/tx_recent_until_100.parquet" |}.

Definition fs3 : FS :=
  {| dirs := {[ "data"; "data/ethereum"; "data/ethereum/transactions" ]};
     files := {[ "data/ethereum/transactions/tx_recent_until_100.parquet" := rows3 ]} |}.

(** A file system in which the output path of head 100 already holds an
    older, empty batch. *)
Definition stale_fs : FS :=
  {| dirs := {[ "data" ]};
     files := {[ "data/ethereum/transactions/tx_recent_until_100.parquet" := [] ]} |}.

End Demo.

(** A node whose head block carries a timestamp one second past the last
    instant [datetime] can hold. *)
Module Demo2.

Definition late_block : Block :=
  {| timestamp := 253402300800; transactions := [Demo.tx 0 None] |}.

Definition late_node : Provider :=
  {| eth_block_number := inr 7;
     eth_get_block := fun n =>
       if n =? 7 then inr late_block
       else if (0 <=? n) && (n <? 7)
            then inr {| timestamp := 1700000000 + 12 * n;
                        transactions := [Demo.tx 0 (Some (n + 1))] |}
            else inl (RpcBlockNotFound n) |}.

Definition network (url : string) : Provider := late_node.

Definition asset := ethereum_transactions_recent Demo.hex network.

(** A node with head 3: block 2 holds a transaction with a fee of 2^53 + 1
    and a legacy transaction, block 3 a transaction with a fee of 5. *)
Definition fee_node : Provider :=
  {| eth_block_number := inr 3;
     eth_get_block := fun n =>
       if n =? 2
       then inr {| timestamp := 1700000000;
                   transactions := [Demo.tx 0 (Some 9007199254740993);
                                    Demo.tx 1 None] |}
       else if n =? 3
       then inr {| timestamp := 1700000012;
                   transactions := [Demo.tx 0 (Some 5)] |}
       else if (0 <=? n) && (n <? 2)
            then inr {| timestamp := 1700000000 - 12 * (2 - n);
                        transactions := [] |}
            else inl (RpcBlockNotFound n) |}.

Definition fee_asset :=
  ethereum_transactions_recent Demo.hex (fun _ => fee_node).

(** A node whose only block holds a transfer of 19 * 10^18 wei, more than
    2^64. *)
Definition big_node : Provider :=
  {| eth_block_number := inr 0;
     eth_get_block := fun n =>
       if n =? 0
       then inr {| timestamp := 1438269973;
                   transactions := [Demo.tx 19 None] |}
       else inl (RpcBlockNotFound n) |}.

Definition big_asset :=
  ethereum_transactions_recent Demo.hex (fun _ => big_node).

End Demo2.

(** ** Observations on a run *)

Definition is_key_error (x : exn) : Prop :=
  match x with KeyError _ => True | _ => False end.

(** The error of a failed request, if the event is one. *)
Definition rpc_failed (c : Event) : option rpc_error :=
  match c with
  | RpcBlockNumber (inl e) => Some e
  | RpcGetBlock _ (inl e) => Some e
  | _ => None
  end.

(** The block numbers requested with [get_block], in the order of the
    requests. *)
Definition fetched_blocks (tr : list Event) : list Z :=
  omap (fun c => match c with RpcGetBlock n _ => Some n | _ => None end) tr.

(** Number of transactions the node reports in block [n]. *)
Definition tx_count (w3 : Provider) (n : Z) : nat :=
  match eth_get_block w3 n with
  | inr b => length (transactions b)
  | inl _ => 0%nat
  end.

(** The transactions of the blocks [ns], each with its block and block
    number, blocks in the order of [ns] and transactions in the order in
    which the node lists them. *)
Definition source_txs (w3 : Provider) (ns : list Z) : list (Z * Block * Transaction) :=
  flat_map (fun n => match eth_get_block w3 n with
                     | inr b => map (fun t => (n, b, t)) (transactions b)
                     | inl _ => []
                     end) ns.

(** Among the transactions [src], some have the attribute [attr] and some
    lack it. *)
Definition some_lack (attr : Transaction -> option Z)
    (src : list (Z * Block * Transaction)) : bool :=
  existsb (fun s => bool_decide (attr (snd s) = None)) src
  && existsb (fun s => bool_decide (attr (snd s) <> None)) src.

(** Rows compared by block number, then by transaction index. *)
Definition row_lt (r1 r2 : TransactionRecord) : Prop :=
  block_number r1 < block_number r2
  \/ (block_number r1 = block_number r2
      /\ transaction_index r1 < transaction_index r2).

(** The node lists the transactions of block [n] by ascending index. *)
Definition index_ordered (w3 : Provider) (n : Z) : Prop :=
  match eth_get_block w3 n with
  | inr b => StronglySorted Z.lt (map tx_transactionIndex (transactions b))
  | inl _ => True
  end.

(** The file system once [rows] has been written for head [latest]: what
    [makedirs] and [to_parquet] leave behind. *)
Definition written (fs : FS) (latest : Z) (rows : list TransactionRecord) : FS :=
  {| dirs := {[ "data"; "data/ethereum"; "data/ethereum/transactions" ]} ∪ dirs fs;
     files := <[out_path latest := rows]> (files fs) |}.

(** The file system once [makedirs] has run and nothing has been written. *)
Definition made_dirs (fs : FS) : FS :=
  {| dirs := {[ "data"; "data/ethereum"; "data/ethereum/transactions" ]} ∪ dirs fs;
     files := files fs |}.

(** The progress lines of a run: for each [Processed up to block n
    (rows: k)], the pair [(n, k)], in order. *)
Definition processed_logs (tr : list Event) : list (Z * nat) :=
  omap (fun c => match c with
                 | LogInfo (Processed n k) => Some (n, k)
                 | _ => None
                 end) tr.

(** The event is neither a head query nor the opening log line. *)
Definition in_loop (c : Event) : Prop :=
  match c with
  | RpcBlockNumber _ => False
  | LogInfo (Fetching _ _) => False
  | _ => True
  end.

(** * Properties *)

(** ** The built-ins on a few inputs *)

Example int_10 : Py.int "10" = inr 10.
Proof. reflexivity. Qed.
Example int_neg : Py.int " -3 " = inr (-3).
Proof. reflexivity. Qed.
Example int_us : Py.int "1_000" = inr 1000.
Proof. reflexivity. Qed.
Example int_bad1 : Py.int "1__0" = inl (ValueError "1__0").
Proof. reflexivity. Qed.
Example int_bad2 : Py.int "ten" = inl (ValueError "ten").
Proof. reflexivity. Qed.
Example int_bad3 : Py.int "- 3" = inl (ValueError "- 3").
Proof. reflexivity. Qed.
Example int_bad4 : Py.int "" = inl (ValueError "").
Proof. reflexivity. Qed.
Example int_bad5 : Py.int "1_" = inl (ValueError "1_").
Proof. reflexivity. Qed.
Example int_bad6 : Py.int "12 3" = inl (ValueError "12 3").
Proof. reflexivity. Qed.
Example int_bad7 :
  Py.int (String (ascii_of_nat 31) "12")
  = inl (ValueError (String (ascii_of_nat 31) "12")).
Proof. reflexivity. Qed.
Example float_of_int_small : float_of_int 9007199254740992 = 9007199254740992.
Proof. reflexivity. Qed.
Example float_of_int_tie_down : float_of_int 9007199254740993 = 9007199254740992.
Proof. reflexivity. Qed.
Example float_of_int_tie_up : float_of_int 9007199254740995 = 9007199254740996.
Proof. reflexivity. Qed.
Example float_of_int_wei :
  float_of_int 1000000000000000000001 = 1000000000000000000000.
Proof. reflexivity. Qed.
Example range_ex : Py.range 98 101 = [98; 99; 100].
Proof. reflexivity. Qed.

Example isoformat_epoch :
  Datetime.isoformat_utc 0 = inr "1970-01-01T00:00:00+00:00".
Proof. reflexivity. Qed.
Example isoformat_leap_day :
  Datetime.isoformat_utc 1709251199 = inr "2024-02-29T23:59:59+00:00".
Proof. reflexivity. Qed.
Example isoformat_frontier :
  Datetime.isoformat_utc 1438269973 = inr "2015-07-30T15:26:13+00:00".
Proof. reflexivity. Qed.
Example isoformat_last :
  Datetime.isoformat_utc 253402300799 = inr "9999-12-31T23:59:59+00:00".
Proof. reflexivity. Qed.
Example isoformat_too_late :
  Datetime.isoformat_utc 253402300800 = inl (TimestampError 253402300800).
Proof. reflexivity. Qed.
Example out_path_100 :
  out_path 100 = "data/ethereum/transactions/tx_recent_until_100.parquet".
Proof. reflexivity. Qed.

(** ** The monad and the loop *)

Lemma last_app_nonempty {A} (l1 l2 : list A) x :
  last l2 = Some x -> last (l1 ++ l2) = Some x.
Proof.
  intros H. destruct l2 as [|y l2]; [discriminate|].
  rewrite last_app, H. reflexivity.
Qed.

(** [int] raises nothing but [ValueError], and the conversion of a
    timestamp nothing but [TimestampError]. *)
Lemma int_error s x : Py.int s = inl x -> x = ValueError s.
Proof.
  unfold Py.int.
  destruct (match Py.lstrip s with EmptyString => _ | String _ _ => _ end)
    as [sign ds].
  destruct (Py.starts_with_digit ds); [destruct (Py.int_digits 0 ds)|];
    now intros [= <-].
Qed.

Lemma isoformat_error ts x :
  Datetime.isoformat_utc ts = inl x -> x = TimestampError ts.
Proof.
  unfold Datetime.isoformat_utc.
  destruct (_ && _); [|now intros [= <-]].
  destruct (Datetime.ord2ymd _) as [[y m] d]. intros [=].
Qed.

Lemma last_seqZ m n : 0 < n -> last (seqZ m n) = Some (m + n - 1).
Proof.
  intros Hn. rewrite last_lookup, length_seqZ.
  rewrite lookup_seqZ_lt by lia. f_equal. lia.
Qed.

Lemma seqZ_sorted m n : StronglySorted Z.lt (seqZ m n).
Proof.
  destruct (Z_lt_le_dec 0 n) as [Hn|Hn]; [|rewrite seqZ_nil by lia; constructor].
  rewrite <- (Z2Nat.id n) by lia. generalize (Z.to_nat n) as k. clear.
  intros k. revert m. induction k as [|k IH]; intros m.
  - rewrite seqZ_nil by lia. constructor.
  - rewrite seqZ_cons by lia. constructor.
    + replace (Z.pred (Z.of_nat (S k))) with (Z.of_nat k) by lia. apply IH.
    + apply Forall_seqZ. intros; lia.
Qed.

Section Loop.

Variable HexBytes_hex : list Byte.byte -> string.
Variable w3 : Provider.
Variable latest : Z.

Let body := fetch_block HexBytes_hex w3 latest.

(** One iteration, case by case. *)
Lemma fetch_block_eq rows n fs :
  body rows n fs =
  match eth_get_block w3 n with
  | inl e => ([RpcGetBlock n (inl e)], fs, inl (ProviderError e))
  | inr b =>
      match Datetime.isoformat_utc (timestamp b) with
      | inl x => ([RpcGetBlock n (inr b)], fs, inl x)
      | inr ts =>
          let rows' := rows ++ map (row_of HexBytes_hex n ts) (transactions b) in
          (RpcGetBlock n (inr b)
             :: (if (n mod 5 =? 0) || (n =? latest)
                 then [LogInfo (Processed n (length rows'))] else []),
           fs, inr rows')
      end
  end.
Proof.
  unfold body, fetch_block, bind, get_block, lift, when, log_info, emit, ret.
  destruct (eth_get_block w3 n) as [e|b]; [reflexivity|].
  destruct (Datetime.isoformat_utc (timestamp b)) as [x|ts]; [reflexivity|].
  destruct ((n mod 5 =? 0) || (n =? latest)); reflexivity.
Qed.

(** A successful iteration leaves the files alone, requests exactly block
    [n], sees no failure, and appends the rows of block [n]. *)
Lemma fetch_block_inr rows n fs tr fs' rows' :
  body rows n fs = (tr, fs', inr rows') ->
  fs' = fs /\ fetched_blocks tr = [n] /\ Forall (fun c => rpc_failed c = None) tr
  /\ block_ok w3 n /\ rows' = rows ++ block_records HexBytes_hex w3 n.
Proof.
  rewrite fetch_block_eq. unfold block_ok, block_records.
  destruct (eth_get_block w3 n) as [e|b]; [intros [=]|].
  destruct (Datetime.isoformat_utc (timestamp b)) as [x|ts] eqn:Hts;
    [intros [=]|].
  intros [= <- <- <-]. split; [reflexivity|].
  split; [destruct ((n mod 5 =? 0) || (n =? latest)); reflexivity|].
  split; [destruct ((n mod 5 =? 0) || (n =? latest)); repeat constructor|].
  split; [now exists b, ts|reflexivity].
Qed.

(** A failing iteration leaves the files alone; its only request is the
    last event, and if that request failed its error is the one raised. *)
Lemma fetch_block_inl rows n fs tr fs' x :
  body rows n fs = (tr, fs', inl x) ->
  fs' = fs /\ exists r, tr = [RpcGetBlock n r]
     /\ (forall e, r = inl e -> x = ProviderError e).
Proof.
  rewrite fetch_block_eq.
  destruct (eth_get_block w3 n) as [e|b].
  - intros [= <- <- <-]. split; [reflexivity|]. eexists; split; [reflexivity|].
    now intros e' [= ->].
  - destruct (Datetime.isoformat_utc (timestamp b)) as [y|ts]; [|intros [=]].
    intros [= <- <- <-]. split; [reflexivity|]. eexists; split; [reflexivity|].
    intros e' [=].
Qed.

Lemma for_each_cons rows n ns fs :
  for_each body (n :: ns) rows fs =
  match body rows n fs with
  | (t, fs1, inl e) => (t, fs1, inl e)
  | (t, fs1, inr rows1) =>
      let '(t', fs2, r) := for_each body ns rows1 fs1 in (t ++ t', fs2, r)
  end.
Proof. reflexivity. Qed.

(** The loop never touches the files. *)
Lemma for_each_fs ns : forall rows fs tr fs' r,
  for_each body ns rows fs = (tr, fs', r) -> fs' = fs.
Proof.
  induction ns as [|n ns IH]; intros rows fs tr fs' r.
  - intros [= <- <- <-]. reflexivity.
  - rewrite for_each_cons.
    destruct (body rows n fs) as [[t fs1] [e|rows1]] eqn:Hb.
    + intros [= <- <- <-]. now apply fetch_block_inl in Hb as [-> _].
    + apply fetch_block_inr in Hb as (-> & _).
      destruct (for_each body ns rows1 fs) as [[t' fs2] r'] eqn:Hl.
      intros [= <- <- <-]. eauto.
Qed.

(** A loop that runs to its end requested every block of [ns], in order,
    none of the requests failed, and the rows are those of the blocks of
    [ns], one block after the other. *)
Lemma for_each_inr ns : forall rows fs tr fs' rows',
  for_each body ns rows fs = (tr, fs', inr rows') ->
  fetched_blocks tr = ns /\ Forall (fun c => rpc_failed c = None) tr
  /\ Forall (block_ok w3) ns
  /\ rows' = rows ++ flat_map (block_records HexBytes_hex w3) ns.
Proof.
  induction ns as [|n ns IH]; intros rows fs tr fs' rows'.
  - intros [= <- <- <-]. cbn. rewrite app_nil_r. repeat split; constructor.
  - rewrite for_each_cons.
    destruct (body rows n fs) as [[t fs1] [e|rows1]] eqn:Hb; [intros [=]|].
    apply fetch_block_inr in Hb as (-> & Hf & Hok & Hb & ->).
    destruct (for_each body ns _ fs) as [[t' fs2] r'] eqn:Hl.
    intros [= <- <- ->]. apply IH in Hl as (Hf' & Hok' & Hbs & ->).
    unfold fetched_blocks in *. rewrite omap_app, Hf, Hf'. cbn.
    rewrite <- app_assoc. repeat split; auto.
    apply Forall_app; auto.
Qed.

(** If a request of the loop failed, the loop raised that very error and
    the failed request is its last event. *)
Lemma for_each_failed ns : forall rows fs tr fs' r c e,
  for_each body ns rows fs = (tr, fs', r) ->
  c ∈ tr -> rpc_failed c = Some e ->
  r = inl (ProviderError e) /\ last tr = Some c.
Proof.
  induction ns as [|n ns IH]; intros rows fs tr fs' r c e.
  - intros [= <- <- <-] Hin. now apply elem_of_nil in Hin.
  - rewrite for_each_cons.
    destruct (body rows n fs) as [[t fs1] [x|rows1]] eqn:Hb.
    + intros [= <- <- <-] Hin Hc.
      apply fetch_block_inl in Hb as (-> & r0 & -> & Hr).
      apply list_elem_of_singleton in Hin as ->.
      destruct r0 as [e'|b]; [|discriminate]. cbn in Hc. injection Hc as ->.
      split; [now rewrite (Hr e)|reflexivity].
    + apply fetch_block_inr in Hb as (-> & _ & Hok & _).
      destruct (for_each body ns _ fs) as [[t' fs2] r'] eqn:Hl.
      intros [= <- <- <-] Hin Hc.
      apply elem_of_app in Hin as [Hin|Hin].
      * rewrite Forall_forall in Hok. apply Hok in Hin. congruence.
      * destruct (IH _ _ _ _ _ _ _ Hl Hin Hc) as [-> Hlast].
        split; [reflexivity|]. now apply last_app_nonempty.
Qed.

(** The loop raises no [KeyError]. *)
Lemma for_each_error ns : forall rows fs tr fs' x,
  for_each body ns rows fs = (tr, fs', inl x) -> ~ is_key_error x.
Proof.
  induction ns as [|n ns IH]; intros rows fs tr fs' x; [intros [=]|].
  rewrite for_each_cons.
  destruct (body rows n fs) as [[t fs1] [y|rows1]] eqn:Hb.
  - intros [= <- <- ->]. rewrite fetch_block_eq in Hb.
    destruct (eth_get_block w3 n) as [e|b]; [injection Hb as <- <- <-; auto|].
    destruct (Datetime.isoformat_utc (timestamp b)) as [z|ts] eqn:Hts;
      [|discriminate].
    injection Hb as <- <- <-. apply isoformat_error in Hts as ->. auto.
  - destruct (for_each body ns rows1 fs1) as [[t1 fs2] r1] eqn:Hl.
    intros [= <- <- ->]. eauto.
Qed.

(** When every block of [ns] can be fetched and converted, the loop runs to
    its end. *)
Lemma for_each_complete ns : forall rows fs,
  Forall (block_ok w3) ns ->
  exists tr, for_each body ns rows fs
             = (tr, fs, inr (rows ++ flat_map (block_records HexBytes_hex w3) ns)).
Proof.
  induction ns as [|n ns IH]; intros rows fs Hok.
  - exists []. cbn. now rewrite app_nil_r.
  - inversion Hok as [|? ? (b & ts & Hb & Hts) Hok']; subst.
    destruct (IH (rows ++ block_records HexBytes_hex w3 n) fs Hok') as [t' Ht'].
    unfold block_records in Ht'. rewrite Hb, Hts in Ht'.
    eexists. rewrite for_each_cons, fetch_block_eq, Hb, Hts.
    cbn beta iota zeta. rewrite Ht'. cbn. unfold block_records at 1. rewrite Hb, Hts.
    rewrite <- app_assoc. reflexivity.
Qed.

End Loop.

(** The loop depends on the node only through the blocks it requests, and
    on the file system not at all. *)
Lemma for_each_ext HexBytes_hex w3 w3' latest ns :
  (forall n, n ∈ ns -> eth_get_block w3' n = eth_get_block w3 n) ->
  forall rows fs fs2 tr fs1 r,
    for_each (fetch_block HexBytes_hex w3 latest) ns rows fs = (tr, fs1, r) ->
    for_each (fetch_block HexBytes_hex w3' latest) ns rows fs2 = (tr, fs2, r).
Proof.
  induction ns as [|n ns IH]; intros Hagree rows fs fs2 tr fs1 r.
  - now intros [= <- <- <-].
  - rewrite !for_each_cons, !fetch_block_eq, Hagree by left.
    destruct (eth_get_block w3 n) as [e|b]; [now intros [= <- <- <-]|].
    destruct (Datetime.isoformat_utc (timestamp b)) as [x|ts];
      [now intros [= <- <- <-]|].
    cbn beta iota zeta.
    match goal with
    | |- context [for_each ?f ns ?rs fs] =>
        destruct (for_each f ns rs fs) as [[t1 fs3] r1] eqn:Hl
    end.
    intros [= <- <- <-].
    rewrite (IH (fun m Hm => Hagree m (list_elem_of_further _ _ _ Hm))
               _ _ fs2 _ _ _ Hl).
    reflexivity.
Qed.

(** ** The rows of a list of blocks *)

Section Records.

Variable HexBytes_hex : list Byte.byte -> string.
Variable w3 : Provider.

Local Abbreviation records := (block_records HexBytes_hex w3).

Lemma block_records_ok n b ts :
  eth_get_block w3 n = inr b -> Datetime.isoformat_utc (timestamp b) = inr ts ->
  records n = map (row_of HexBytes_hex n ts) (transactions b).
Proof. intros Hb Hts. unfold block_records. now rewrite Hb, Hts. Qed.

Lemma block_records_length n : block_ok w3 n -> length (records n) = tx_count w3 n.
Proof.
  intros (b & ts & Hb & Hts). rewrite (block_records_ok _ _ _ Hb Hts).
  unfold tx_count. now rewrite Hb, length_map.
Qed.

Lemma records_length ns :
  Forall (block_ok w3) ns ->
  length (flat_map records ns) = sum_list (map (tx_count w3) ns).
Proof.
  induction 1 as [|n ns Hn _ IH]; [reflexivity|].
  cbn. rewrite length_app, IH, block_records_length by exact Hn. reflexivity.
Qed.

(** Every row built for block [n] carries the number [n]. *)
Lemma block_records_number n : Forall (fun r => block_number r = n) (records n).
Proof.
  unfold block_records. destruct (eth_get_block w3 n) as [e|b]; [constructor|].
  destruct (Datetime.isoformat_utc (timestamp b)) as [x|ts]; [constructor|].
  apply List.Forall_forall. intros r [t [<- _]]%in_map_iff. reflexivity.
Qed.

Lemma records_number ns r :
  In r (flat_map records ns) -> In (block_number r) ns.
Proof.
  intros (n & Hn & Hr)%in_flat_map.
  pose proof (block_records_number n) as H. rewrite List.Forall_forall in H.
  now rewrite (H r Hr).
Qed.

(** Among the rows of distinct blocks, those numbered [n] are the rows of
    block [n], untouched. *)
Lemma records_filter ns n :
  NoDup ns -> n ∈ ns ->
  filter (fun r => block_number r = n) (flat_map records ns) = records n.
Proof.
  assert (Hall : forall m, filter (fun r => block_number r = m) (records m) = records m).
  { intros m. pose proof (block_records_number m) as H.
    induction H as [|r l Hr _ IH]; [reflexivity|].
    rewrite filter_cons_True by exact Hr. now rewrite IH. }
  assert (Hnone : forall m, m <> n ->
            filter (fun r => block_number r = n) (records m) = []).
  { intros m Hm. pose proof (block_records_number m) as H.
    induction H as [|r l Hr _ IH]; [reflexivity|].
    rewrite filter_cons_False by congruence. exact IH. }
  assert (Hout : forall l, n ∉ l ->
            filter (fun r => block_number r = n) (flat_map records l) = []).
  { induction l as [|m l IH]; intros Hl; [reflexivity|].
    cbn. rewrite filter_app, Hnone, IH; [reflexivity| |]; set_solver. }
  induction 1 as [|m l Hm Hnd IH]; intros Hin; [set_solver|].
  cbn. rewrite filter_app.
  destruct (decide (m = n)) as [->|Hne].
  - rewrite Hall, Hout by exact Hm. apply app_nil_r.
  - rewrite Hnone by exact Hne. rewrite IH; [reflexivity|].
    apply elem_of_cons in Hin as [->|Hin]; [congruence|exact Hin].
Qed.

(** Rows of ascending blocks, each block listed by ascending index, are
    ascending by block number and then by index. *)
Lemma records_sorted ns :
  StronglySorted Z.lt ns -> (forall n, n ∈ ns -> index_ordered w3 n) ->
  StronglySorted row_lt (flat_map records ns).
Proof.
  induction 1 as [|n ns Hs IH Hlt]; intros Hord; [constructor|].
  cbn. apply StronglySorted_app. split; [|split].
  - intros r1 r2 Hr1%list_elem_of_In Hr2%list_elem_of_In. left.
    pose proof (block_records_number n) as H. rewrite List.Forall_forall in H.
    rewrite (H r1 Hr1). apply records_number in Hr2.
    rewrite List.Forall_forall in Hlt. now apply Hlt.
  - specialize (Hord n ltac:(set_solver)). unfold index_ordered in Hord.
    unfold block_records. destruct (eth_get_block w3 n) as [e|b]; [constructor|].
    destruct (Datetime.isoformat_utc (timestamp b)) as [x|ts]; [constructor|].
    induction (transactions b) as [|t l IHl]; [constructor|].
    cbn in Hord |- *. apply StronglySorted_cons in Hord as [Hhd Htl].
    constructor; [now apply IHl|].
    apply Forall_forall. intros r [t' [<- Ht']]%list_elem_of_In%in_map_iff.
    right. split; [reflexivity|]. cbn.
    rewrite Forall_forall in Hhd. apply Hhd. apply list_elem_of_In.
    now apply in_map.
  - apply IH. intros m Hm. apply Hord. set_solver.
Qed.

(** Rows of ascending blocks have non-decreasing block numbers. *)
Lemma records_block_sorted ns :
  StronglySorted Z.lt ns ->
  StronglySorted Z.le (map block_number (flat_map records ns)).
Proof.
  induction 1 as [|n ns Hs IH Hlt]; [constructor|].
  cbn. rewrite map_app. apply StronglySorted_app. split; [|split; [|exact IH]].
  - intros x y [r1 [<- Hr1]]%list_elem_of_In%in_map_iff
                [r2 [<- Hr2]]%list_elem_of_In%in_map_iff.
    pose proof (block_records_number n) as H. rewrite List.Forall_forall in H.
    rewrite (H r1 Hr1). apply records_number in Hr2.
    rewrite List.Forall_forall in Hlt. now apply Z.lt_le_incl, Hlt.
  - pose proof (block_records_number n) as H.
    induction H as [|r l Hr Hl IHl]; [constructor|].
    cbn. constructor; [exact IHl|].
    apply List.Forall_forall. intros x [r' [<- Hr']]%in_map_iff.
    rewrite List.Forall_forall in Hl. rewrite Hr, (Hl r' Hr'). reflexivity.
Qed.

(** One row per transaction of the blocks, in the same order, each a copy
    of its transaction. *)
Lemma records_copied ns :
  Forall (block_ok w3) ns ->
  Forall2 (fields_copied HexBytes_hex false false)
    (flat_map records ns) (source_txs w3 ns).
Proof.
  induction 1 as [|n ns (b & ts & Hb & Hts) _ IH]; [constructor|].
  unfold source_txs in *. cbn. apply Forall2_app; [|exact IH].
  rewrite (block_records_ok _ _ _ Hb Hts), Hb.
  induction (transactions b) as [|t l IHl]; [constructor|].
  cbn. constructor; [|exact IHl].
  unfold fields_copied, row_of; cbn.
  destruct (tx_maxFeePerGas t), (tx_maxPriorityFeePerGas t); cbn;
    repeat split; auto; try discriminate; try (now intros ? [= ->]).
Qed.

(** Where a row of the blocks [ns] comes from. *)
Lemma records_origin ns r :
  In r (flat_map records ns) ->
  In (block_number r) ns
  /\ exists b, eth_get_block w3 (block_number r) = inr b
       /\ Datetime.isoformat_utc (timestamp b) = inr (block_timestamp r).
Proof.
  intros Hr. split; [now apply records_number|].
  apply in_flat_map in Hr as (n & _ & Hr). unfold block_records in Hr.
  destruct (eth_get_block w3 n) as [e|b] eqn:Hb; [destruct Hr|].
  destruct (Datetime.isoformat_utc (timestamp b)) as [x|ts] eqn:Hts; [destruct Hr|].
  apply in_map_iff in Hr as (t & <- & _). cbn. rewrite Hb. eauto.
Qed.

End Records.

Lemma sorted_le_lookup (l : list Z) i j x y :
  StronglySorted Z.le l -> (i <= j)%nat ->
  l !! i = Some x -> l !! j = Some y -> x <= y.
Proof.
  intros Hs. revert i j. induction Hs as [|a l Hs IH Ha]; intros i j Hij Hi Hj.
  - discriminate.
  - destruct i as [|i], j as [|j]; cbn in Hi, Hj; try lia.
    + injection Hi as <-. injection Hj as <-. lia.
    + injection Hi as <-. rewrite Forall_forall in Ha. apply Ha.
      now apply list_elem_of_lookup_2 with j.
    + apply (IH i j); [lia|assumption..].
Qed.

(** ** The frame built from the rows *)

Lemma length_DataFrame rows : length (DataFrame rows) = length rows.
Proof. unfold DataFrame. apply length_map. Qed.

Lemma DataFrame_nil rows : DataFrame rows = [] <-> rows = [].
Proof.
  split; [|now intros ->]. intros H. apply (f_equal (@length _)) in H.
  rewrite length_DataFrame in H. now destruct rows.
Qed.

(** The frame keeps the order of the rows and every field but the fees. *)
Lemma DataFrame_block_number rows :
  map block_number (DataFrame rows) = map block_number rows.
Proof. unfold DataFrame. rewrite map_map. reflexivity. Qed.

Lemma coerce_filter_number f1 f2 n rows :
  filter (fun r => block_number r = n) (map (coerce_row f1 f2) rows)
  = map (coerce_row f1 f2) (filter (fun r => block_number r = n) rows).
Proof.
  induction rows as [|r rows IH]; [reflexivity|]. cbn [map].
  destruct (decide (block_number r = n)) as [Hn|Hn].
  - rewrite !filter_cons_True by exact Hn. cbn [map]. now rewrite IH.
  - rewrite !filter_cons_False by exact Hn. exact IH.
Qed.

Lemma coerce_sorted f1 f2 rows :
  StronglySorted row_lt rows ->
  StronglySorted row_lt (map (coerce_row f1 f2) rows).
Proof.
  induction 1 as [|r rows Hs IH Hr]; [constructor|].
  cbn [map]. constructor; [exact IH|].
  apply List.Forall_forall. intros r' [r0 [<- Hr0]]%in_map_iff.
  rewrite List.Forall_forall in Hr. exact (Hr r0 Hr0).
Qed.

Lemma coerce_null f c : coerce f c = Null <-> c = Null.
Proof. destruct c, f; cbn; split; intros H; congruence. Qed.

(** Rows that are copies of their transactions stay so in a frame, each
    fee column with its own storage. *)
Lemma coerce_copied HexBytes_hex g1 g2 rows src :
  Forall2 (fields_copied HexBytes_hex false false) rows src ->
  Forall2 (fields_copied HexBytes_hex g1 g2) (map (coerce_row g1 g2) rows) src.
Proof.
  induction 1 as [|r [[n b] t] rows src Hr _ IH]; [constructor|].
  cbn [map]. constructor; [|exact IH].
  destruct Hr as (H1 & H2 & H3 & H4 & H5 & H6 & H7 & H8 & H9
                  & H10 & H11 & H12 & H13).
  unfold fields_copied; cbn. rewrite !coerce_null.
  repeat (split; [assumption|]). split.
  - intros v Hv. now rewrite (H12 v Hv).
  - intros v Hv. now rewrite (H13 v Hv).
Qed.

Lemma copied_existsb HexBytes_hex rows src :
  Forall2 (fields_copied HexBytes_hex false false) rows src ->
  (existsb is_null (map max_fee_per_gas rows)
   = existsb (fun s => bool_decide (tx_maxFeePerGas (snd s) = None)) src
   /\ existsb (fun c => negb (is_null c)) (map max_fee_per_gas rows)
      = existsb (fun s => bool_decide (tx_maxFeePerGas (snd s) <> None)) src)
  /\ (existsb is_null (map max_priority_fee_per_gas rows)
      = existsb (fun s => bool_decide (tx_maxPriorityFeePerGas (snd s) = None)) src
      /\ existsb (fun c => negb (is_null c)) (map max_priority_fee_per_gas rows)
         = existsb (fun s => bool_decide (tx_maxPriorityFeePerGas (snd s) <> None))
             src).
Proof.
  induction 1 as [|r [[n b] t] rows src Hr _ [[IH1 IH2] [IH3 IH4]]];
    [repeat split|].
  destruct Hr as (_ & _ & _ & _ & _ & _ & _ & _ & _ & H10 & H11 & _).
  assert (E1 : is_null (max_fee_per_gas r)
               = bool_decide (tx_maxFeePerGas t = None)).
  { destruct (max_fee_per_gas r), (tx_maxFeePerGas t); cbn; try reflexivity;
      destruct H10 as [Ha Hb];
      first [now discriminate Ha | now discriminate Hb]. }
  assert (E2 : is_null (max_priority_fee_per_gas r)
               = bool_decide (tx_maxPriorityFeePerGas t = None)).
  { destruct (max_priority_fee_per_gas r), (tx_maxPriorityFeePerGas t); cbn;
      try reflexivity; destruct H11 as [Ha Hb];
      first [now discriminate Ha | now discriminate Hb]. }
  assert (N1 : forall o : option Z,
            bool_decide (o <> None) = negb (bool_decide (o = None)))
    by (intros [v|]; reflexivity).
  cbn [map existsb snd]. rewrite E1, E2, !N1, IH1, IH2, IH3, IH4.
  repeat split.
Qed.

(** A fee column of the rows mixes nulls and integers exactly when some of
    the transactions lack the attribute and some have it. *)
Lemma mixed_some_lack HexBytes_hex rows src :
  Forall2 (fields_copied HexBytes_hex false false) rows src ->
  mixed (map max_fee_per_gas rows) = some_lack tx_maxFeePerGas src
  /\ mixed (map max_priority_fee_per_gas rows)
     = some_lack tx_maxPriorityFeePerGas src.
Proof.
  intros [[E1 E2] [E3 E4]]%copied_existsb. unfold mixed, some_lack.
  now rewrite E1, E2, E3, E4.
Qed.

(** Where a row of the frame comes from. *)
Lemma DataFrame_In rows r :
  In r (DataFrame rows) ->
  exists r0, In r0 rows /\ block_number r = block_number r0
             /\ block_timestamp r = block_timestamp r0.
Proof.
  unfold DataFrame. intros [r0 [<- Hr0]]%in_map_iff. now exists r0.
Qed.

Lemma coerce_row_idem f1 f2 g1 g2 r :
  (f1 = true -> g1 = true) -> (f2 = true -> g2 = true) ->
  coerce_row g1 g2 (coerce_row f1 f2 r) = coerce_row g1 g2 r.
Proof.
  intros H1 H2. unfold coerce_row; cbn. f_equal.
  - destruct f1; [rewrite H1 by reflexivity|];
      destruct (max_fee_per_gas r); reflexivity.
  - destruct f2; [rewrite H2 by reflexivity|];
      destruct (max_priority_fee_per_gas r); reflexivity.
Qed.

Lemma mixed_app_r (a b : list Cell) : mixed b = true -> mixed (a ++ b) = true.
Proof.
  unfold mixed. rewrite !existsb_app.
  intros [-> ->]%andb_prop. now rewrite !orb_true_r.
Qed.

(** The frame of a longer list of rows ends with the frame of the shorter
    one, its fee columns stored as those of the longer frame. *)
Lemma DataFrame_app older rows :
  DataFrame (older ++ rows)
  = map (coerce_row (mixed (map max_fee_per_gas (older ++ rows)))
           (mixed (map max_priority_fee_per_gas (older ++ rows)))) older
    ++ map (coerce_row (mixed (map max_fee_per_gas (older ++ rows)))
              (mixed (map max_priority_fee_per_gas (older ++ rows))))
         (DataFrame rows).
Proof.
  unfold DataFrame at 1. rewrite map_app. f_equal.
  unfold DataFrame. rewrite map_map. apply map_ext. intros r.
  symmetry. apply coerce_row_idem; rewrite map_app; apply mixed_app_r.
Qed.

Lemma existsb_map_ext {A B} (p : B -> bool) (f g : A -> B) l :
  (forall a, p (f a) = p (g a)) ->
  existsb p (map f l) = existsb p (map g l).
Proof.
  intros H. induction l as [|a l IH]; [reflexivity|].
  cbn. now rewrite H, IH.
Qed.

Lemma mixed_coerce g1 g2 l :
  mixed (map max_fee_per_gas (map (coerce_row g1 g2) l))
  = mixed (map max_fee_per_gas l)
  /\ mixed (map max_priority_fee_per_gas (map (coerce_row g1 g2) l))
     = mixed (map max_priority_fee_per_gas l).
Proof.
  unfold mixed. rewrite !map_map. split.
  - f_equal; apply existsb_map_ext; intros r; cbn;
      destruct (max_fee_per_gas r), g1; reflexivity.
  - f_equal; apply existsb_map_ext; intros r; cbn;
      destruct (max_priority_fee_per_gas r), g2; reflexivity.
Qed.

(** A fee column of the frame mixes nulls and numbers exactly when the
    column of the rows does. *)
Lemma mixed_DataFrame l :
  mixed (map max_fee_per_gas (DataFrame l)) = mixed (map max_fee_per_gas l)
  /\ mixed (map max_priority_fee_per_gas (DataFrame l))
     = mixed (map max_priority_fee_per_gas l).
Proof. unfold DataFrame. apply mixed_coerce. Qed.

Lemma frame_origin HexBytes_hex w3 ns r :
  In r (DataFrame (flat_map (block_records HexBytes_hex w3) ns)) ->
  In (block_number r) ns
  /\ exists b, eth_get_block w3 (block_number r) = inr b
       /\ Datetime.isoformat_utc (timestamp b) = inr (block_timestamp r).
Proof.
  intros (r0 & Hr0 & -> & ->)%DataFrame_In. now apply records_origin in Hr0.
Qed.

(** ** The run as a whole *)

Section Run.

Variable HexBytes_hex : list Byte.byte -> string.
Variable network : string -> Provider.

Local Abbreviation asset := (ethereum_transactions_recent HexBytes_hex network).
Local Notation "'n_blocks_of' environ" :=
  (Py.int (Py.getenv environ "ETH_TX_RECENT_BLOCKS" "10"))
  (at level 10, environ at level 9, only parsing).

(** The asset, step by step. *)
Lemma asset_eq environ fs :
  asset environ fs =
  match environ !! "ETHEREUM_RPC_URL" with
  | None => ([], fs, inl (KeyError "ETHEREUM_RPC_URL"))
  | Some url =>
      match n_blocks_of environ with
      | inl x => ([], fs, inl x)
      | inr N =>
          match eth_block_number (network url) with
          | inl e => ([RpcBlockNumber (inl e)], fs, inl (ProviderError e))
          | inr L =>
              let start := Z.max 0 (L - N + 1) in
              match for_each (fetch_block HexBytes_hex (network url) L)
                      (Py.range start (L + 1)) [] fs with
              | (t, fs1, inl x) =>
                  (RpcBlockNumber (inr L) :: LogInfo (Fetching start L) :: t,
                   fs1, inl x)
              | (t, fs1, inr rows) =>
                  let df := DataFrame rows in
                  if forallb row_fits df
                  then
                    (RpcBlockNumber (inr L) :: LogInfo (Fetching start L) :: t,
                     written fs1 L df,
                     inr {| blocks_scanned := N;
                            latest_block := L;
                            num_transactions := length df;
                            preview := match df with
                                       | [] => NoRows
                                       | _ => Head (take 10 df)
                                       end;
                            file := out_path L |})
                  else
                    (RpcBlockNumber (inr L) :: LogInfo (Fetching start L) :: t,
                     made_dirs fs1, inl OverflowError)
              end
          end
      end
  end.
Proof.
  unfold ethereum_transactions_recent, _get_w3, Py.environ_get.
  unfold bind at 1. unfold bind at 1. unfold lift at 1.
  destruct (environ !! "ETHEREUM_RPC_URL") as [url|]; [|reflexivity].
  cbn [ret app]. unfold bind at 1. unfold lift at 1.
  destruct (n_blocks_of environ) as [x|N]; [reflexivity|].
  unfold bind at 1. unfold block_number_call at 1.
  destruct (eth_block_number (network url)) as [e|L]; [reflexivity|].
  cbn zeta. unfold bind at 1. unfold log_info, emit. unfold bind at 1.
  destruct (for_each _ _ _ fs) as [[t fs1] [x|rows]]; [reflexivity|].
  unfold bind, makedirs_out_dir, to_parquet, ret, written, made_dirs.
  cbn beta iota zeta.
  destruct (forallb row_fits (DataFrame rows)); cbn; rewrite !app_nil_r;
    reflexivity.
Qed.

(** What a completed run did, in terms of the environment and the node. *)
Lemma run_inr environ fs url N L tr fs' res :
  environ !! "ETHEREUM_RPC_URL" = Some url ->
  n_blocks_of environ = inr N ->
  eth_block_number (network url) = inr L ->
  asset environ fs = (tr, fs', inr res) ->
  let ns := Py.range (Z.max 0 (L - N + 1)) (L + 1) in
  let rows := DataFrame (flat_map (block_records HexBytes_hex (network url)) ns) in
  Forall (block_ok (network url)) ns
  /\ fetched_blocks tr = ns
  /\ Forall (fun c => rpc_failed c = None) tr
  /\ fs' = written fs L rows
  /\ res = {| blocks_scanned := N;
              latest_block := L;
              num_transactions := length rows;
              preview := match rows with [] => NoRows | _ => Head (take 10 rows) end;
              file := out_path L |}.
Proof.
  intros Hurl HN HL. rewrite asset_eq, Hurl, HN, HL. cbn zeta.
  destruct (for_each _ _ _ fs) as [[t fs1] [x|rows]] eqn:Hloop; [intros [=]|].
  destruct (forallb row_fits (DataFrame rows)); [|intros [=]].
  intros [= <- <- <-].
  pose proof (for_each_fs _ _ _ _ _ _ _ _ _ Hloop) as ->.
  apply for_each_inr in Hloop as (Hf & Hnf & Hok & ->). cbn [app].
  repeat split; auto.
Qed.

(** The run completes whenever the endpoint is configured, the block count
    is an integer literal, and the node answers for the head and for every
    block of the window. *)
Lemma run_complete environ fs url N L :
  environ !! "ETHEREUM_RPC_URL" = Some url ->
  n_blocks_of environ = inr N ->
  eth_block_number (network url) = inr L ->
  Forall (block_ok (network url)) (Py.range (Z.max 0 (L - N + 1)) (L + 1)) ->
  let rows := DataFrame (flat_map (block_records HexBytes_hex (network url))
                           (Py.range (Z.max 0 (L - N + 1)) (L + 1))) in
  forallb row_fits rows = true ->
  exists tr, asset environ fs
    = (tr, written fs L rows,
       inr {| blocks_scanned := N;
              latest_block := L;
              num_transactions := length rows;
              preview := match rows with [] => NoRows | _ => Head (take 10 rows) end;
              file := out_path L |}).
Proof.
  intros Hurl HN HL Hok rows Hfit. rewrite asset_eq, Hurl, HN, HL. cbn zeta.
  destruct (for_each_complete HexBytes_hex (network url) L _ [] fs Hok) as [t ->].
  cbn [app]. fold rows. rewrite Hfit. eauto.
Qed.

(** C1. With a block count [N >= 1] and head [L], a run that completes has
    requested exactly [min(N, L+1)] blocks: the block numbers
    [max(0, L-N+1)], ..., [L], each once, in ascending order. *)
Theorem fetched_window environ fs url N L tr fs' res :
  environ !! "ETHEREUM_RPC_URL" = Some url ->
  n_blocks_of environ = inr N ->
  eth_block_number (network url) = inr L ->
  asset environ fs = (tr, fs', inr res) ->
  1 <= N -> 0 <= L ->
  fetched_blocks tr = seqZ (Z.max 0 (L - N + 1)) (Z.min N (L + 1))
  /\ Z.of_nat (length (fetched_blocks tr)) = Z.min N (L + 1)
  /\ head (fetched_blocks tr) = Some (Z.max 0 (L - N + 1))
  /\ last (fetched_blocks tr) = Some L
  /\ StronglySorted Z.lt (fetched_blocks tr).
Proof.
  intros Hurl HN HL Hrun HN1 HL0.
  destruct (run_inr _ _ _ _ _ _ _ _ Hurl HN HL Hrun) as (_ & -> & _).
  unfold Py.range.
  replace (L + 1 - Z.max 0 (L - N + 1)) with (Z.min N (L + 1)) by lia.
  split; [reflexivity|]. split; [rewrite length_seqZ; lia|].
  split; [rewrite seqZ_cons by lia; reflexivity|].
  split; [rewrite last_seqZ by lia; f_equal; lia|].
  apply seqZ_sorted.
Qed.

(** C2. In a run that completes, the number of rows of the written batch,
    which is also the reported [num_transactions], is the sum over the
    blocks [start_block..latest_block] of the number of transactions the
    node lists in each. *)
Theorem record_count environ fs url N L tr fs' res :
  environ !! "ETHEREUM_RPC_URL" = Some url ->
  n_blocks_of environ = inr N ->
  eth_block_number (network url) = inr L ->
  asset environ fs = (tr, fs', inr res) ->
  num_transactions res
  = sum_list (map (tx_count (network url))
                (Py.range (Z.max 0 (L - N + 1)) (L + 1)))
  /\ exists rows, files fs' !! file res = Some rows
                  /\ length rows = num_transactions res.
Proof.
  intros Hurl HN HL Hrun.
  destruct (run_inr _ _ _ _ _ _ _ _ Hurl HN HL Hrun) as (Hok & _ & _ & -> & ->).
  cbn. split; [rewrite length_DataFrame; now apply records_length|].
  eexists. split; [apply lookup_insert_eq|reflexivity].
Qed.

(** C3. In a run that completes, the emitted rows are those of the blocks
    of the window in ascending block order; the rows of one block are the
    node's transactions of that block in the order in which the node lists
    them (nothing is sorted again), hence by ascending transaction index
    whenever the node lists them so. The written file holds the frame of
    these rows, and all of this is true of the rows of the file as well. *)
Theorem record_order environ fs url N L tr fs' res :
  environ !! "ETHEREUM_RPC_URL" = Some url ->
  n_blocks_of environ = inr N ->
  eth_block_number (network url) = inr L ->
  asset environ fs = (tr, fs', inr res) ->
  let ns := Py.range (Z.max 0 (L - N + 1)) (L + 1) in
  exists rows,
    files fs' !! file res = Some (DataFrame rows)
    /\ rows = flat_map (block_records HexBytes_hex (network url)) ns
    /\ StronglySorted Z.le (map block_number rows)
    /\ (forall n b, n ∈ ns -> eth_get_block (network url) n = inr b ->
          exists ts, Datetime.isoformat_utc (timestamp b) = inr ts
            /\ filter (fun r => block_number r = n) rows
               = map (row_of HexBytes_hex n ts) (transactions b))
    /\ ((forall n, n ∈ ns -> index_ordered (network url) n) ->
          StronglySorted row_lt rows)
    /\ StronglySorted Z.le (map block_number (DataFrame rows))
    /\ (forall n b, n ∈ ns -> eth_get_block (network url) n = inr b ->
          exists ts, Datetime.isoformat_utc (timestamp b) = inr ts
            /\ filter (fun r => block_number r = n) (DataFrame rows)
               = map (coerce_row (mixed (map max_fee_per_gas rows))
                        (mixed (map max_priority_fee_per_gas rows)))
                   (map (row_of HexBytes_hex n ts) (transactions b)))
    /\ ((forall n, n ∈ ns -> index_ordered (network url) n) ->
          StronglySorted row_lt (DataFrame rows)).
Proof.
  intros Hurl HN HL Hrun ns.
  destruct (run_inr _ _ _ _ _ _ _ _ Hurl HN HL Hrun) as (Hok & _ & _ & -> & ->).
  fold ns in Hok |- *. cbn.
  assert (Hblock : forall n b, n ∈ ns -> eth_get_block (network url) n = inr b ->
            exists ts, Datetime.isoformat_utc (timestamp b) = inr ts
              /\ filter (fun r => block_number r = n)
                   (flat_map (block_records HexBytes_hex (network url)) ns)
                 = map (row_of HexBytes_hex n ts) (transactions b)).
  { intros n b Hn Hb. rewrite Forall_forall in Hok.
    destruct (Hok n Hn) as (b' & ts & Hb' & Hts).
    assert (b' = b) as -> by congruence.
    exists ts. split; [exact Hts|].
    rewrite records_filter by (exact Hn || apply NoDup_seqZ).
    now apply block_records_ok. }
  eexists. split; [apply lookup_insert_eq|]. split; [reflexivity|].
  split; [apply records_block_sorted, seqZ_sorted|].
  split; [exact Hblock|].
  split; [intros Hord; apply records_sorted; [apply seqZ_sorted|exact Hord]|].
  split; [rewrite DataFrame_block_number;
          apply records_block_sorted, seqZ_sorted|].
  split.
  - intros n b Hn Hb. destruct (Hblock n b Hn Hb) as (ts & Hts & Hf).
    exists ts. split; [exact Hts|].
    unfold DataFrame. now rewrite coerce_filter_number, Hf.
  - intros Hord. apply coerce_sorted, records_sorted;
      [apply seqZ_sorted|exact Hord].
Qed.

(** C4. In a run that completes the written file has one row per
    transaction of the window, in order. In each row [max_fee_per_gas] is
    null exactly when the transaction has no [maxFeePerGas], and
    [max_priority_fee_per_gas] is null exactly when it has no
    [maxPriorityFeePerGas]; every other field is the one of the
    transaction. A fee that is there is stored as the integer it is when
    every transaction of the window has that fee, and as the nearest
    [float64] when some transaction of the window lacks it. *)
Theorem eip1559_fields environ fs url N L tr fs' res :
  environ !! "ETHEREUM_RPC_URL" = Some url ->
  n_blocks_of environ = inr N ->
  eth_block_number (network url) = inr L ->
  asset environ fs = (tr, fs', inr res) ->
  let src := source_txs (network url)
               (Py.range (Z.max 0 (L - N + 1)) (L + 1)) in
  exists rows,
    files fs' !! file res = Some rows
    /\ Forall2 (fields_copied HexBytes_hex
                  (some_lack tx_maxFeePerGas src)
                  (some_lack tx_maxPriorityFeePerGas src)) rows src.
Proof.
  intros Hurl HN HL Hrun src.
  destruct (run_inr _ _ _ _ _ _ _ _ Hurl HN HL Hrun) as (Hok & _ & _ & -> & ->).
  cbn. eexists. split; [apply lookup_insert_eq|].
  pose proof (records_copied HexBytes_hex (network url) _ Hok) as Hc.
  fold src in Hc. destruct (mixed_some_lack _ _ _ Hc) as [<- <-].
  now apply coerce_copied.
Qed.

(** C10. In a run that completes, every written row has its block number
    in [start_block..latest_block] and carries the ISO-8601 UTC text of the
    timestamp of that block; rows with the same block number share it and
    lie next to each other. *)
Theorem records_grouped environ fs url N L tr fs' res :
  environ !! "ETHEREUM_RPC_URL" = Some url ->
  n_blocks_of environ = inr N ->
  eth_block_number (network url) = inr L ->
  asset environ fs = (tr, fs', inr res) ->
  exists rows,
    files fs' !! file res = Some rows
    /\ (forall r, r ∈ rows ->
          Z.max 0 (L - N + 1) <= block_number r <= L
          /\ exists b, eth_get_block (network url) (block_number r) = inr b
               /\ Datetime.isoformat_utc (timestamp b) = inr (block_timestamp r))
    /\ (forall i j k ri rj rk, (i <= j <= k)%nat ->
          rows !! i = Some ri -> rows !! j = Some rj -> rows !! k = Some rk ->
          block_number ri = block_number rk ->
          block_number rj = block_number ri)
    /\ (forall r1 r2, r1 ∈ rows -> r2 ∈ rows ->
          block_number r1 = block_number r2 ->
          block_timestamp r1 = block_timestamp r2).
Proof.
  intros Hurl HN HL Hrun.
  destruct (run_inr _ _ _ _ _ _ _ _ Hurl HN HL Hrun) as (Hok & _ & _ & -> & ->).
  cbn. eexists. split; [apply lookup_insert_eq|]. split; [|split].
  - intros r Hr%list_elem_of_In. apply frame_origin in Hr as [Hn Hb].
    split; [|exact Hb].
    apply list_elem_of_In, elem_of_seqZ in Hn. lia.
  - intros i j k ri rj rk [Hij Hjk] Hi Hj Hk Heq.
    pose proof (records_block_sorted HexBytes_hex (network url) _
                  (seqZ_sorted (Z.max 0 (L - N + 1)) (L + 1 - Z.max 0 (L - N + 1))))
      as Hs.
    rewrite <- DataFrame_block_number in Hs.
    assert (Hl : forall a r,
                 DataFrame (flat_map (block_records HexBytes_hex (network url))
                   (Py.range (Z.max 0 (L - N + 1)) (L + 1))) !! a = Some r ->
                 map block_number
                   (DataFrame (flat_map (block_records HexBytes_hex (network url))
                      (Py.range (Z.max 0 (L - N + 1)) (L + 1)))) !! a
                 = Some (block_number r)).
    { intros a r Ha. change (map block_number ?l) with (block_number <$> l).
      now rewrite list_lookup_fmap, Ha. }
    pose proof (sorted_le_lookup _ _ _ _ _ Hs Hij (Hl _ _ Hi) (Hl _ _ Hj)).
    pose proof (sorted_le_lookup _ _ _ _ _ Hs Hjk (Hl _ _ Hj) (Hl _ _ Hk)).
    lia.
  - intros r1 r2 Hr1%list_elem_of_In Hr2%list_elem_of_In Heq.
    apply frame_origin in Hr1 as [_ (b1 & Hb1 & Ht1)].
    apply frame_origin in Hr2 as [_ (b2 & Hb2 & Ht2)].
    rewrite Heq in Hb1. assert (b1 = b2) as -> by congruence. congruence.
Qed.

(** C5. If a JSON-RPC request of the run fails, be it the head query or the
    fetch of a block in the middle of the window, the run raises the error
    of that request as it is, the failed request is the last thing the run
    does, and the file system is the one the run started with: no
    directory, no file, no row of an earlier block. *)
Theorem rpc_failure_aborts environ fs tr fs' r c e :
  asset environ fs = (tr, fs', r) ->
  c ∈ tr -> rpc_failed c = Some e ->
  r = inl (ProviderError e) /\ last tr = Some c /\ fs' = fs.
Proof.
  rewrite asset_eq.
  destruct (environ !! "ETHEREUM_RPC_URL") as [url|];
    [|intros [= <- <- <-] Hc; now apply elem_of_nil in Hc].
  destruct (n_blocks_of environ) as [x|N];
    [intros [= <- <- <-] Hc; now apply elem_of_nil in Hc|].
  destruct (eth_block_number (network url)) as [e0|L].
  - intros [= <- <- <-] ->%list_elem_of_singleton [= ->]. auto.
  - cbn zeta.
    destruct (for_each _ _ _ fs) as [[t fs1] [x|rows]] eqn:Hloop;
      [|destruct (forallb row_fits (DataFrame rows))];
      intros [= <- <- <-] Hc He;
      (apply elem_of_cons in Hc as [->|Hc]; [discriminate|]);
      (apply elem_of_cons in Hc as [->|Hc]; [discriminate|]).
    + pose proof (for_each_fs _ _ _ _ _ _ _ _ _ Hloop) as ->.
      destruct (for_each_failed _ _ _ _ _ _ _ _ _ _ _ Hloop Hc He)
        as [[= ->] Hlast].
      repeat split; [].
      now apply (last_app_nonempty [_; _]).
    + apply for_each_inr in Hloop as (_ & Hnf & _).
      rewrite Forall_forall in Hnf. apply Hnf in Hc. congruence.
    + apply for_each_inr in Hloop as (_ & Hnf & _).
      rewrite Forall_forall in Hnf. apply Hnf in Hc. congruence.
Qed.

(** C6. Without the endpoint variable in the environment the run raises at
    once: no request has been sent and the file system is untouched. *)
Theorem missing_endpoint environ fs :
  environ !! "ETHEREUM_RPC_URL" = None ->
  asset environ fs = ([], fs, inl (KeyError "ETHEREUM_RPC_URL")).
Proof. intros H. now rewrite asset_eq, H. Qed.

(** C8, as the code has it. The endpoint is read from [ETHEREUM_RPC_URL]
    and the run raises [KeyError] for it exactly when it is absent; the
    block count is the integer value of [ETH_TX_RECENT_BLOCKS], or 10 when
    that variable is absent, and it is this count that sizes the window and
    is reported as [blocks_scanned]. *)
Theorem env_names environ fs tr fs' r :
  asset environ fs = (tr, fs', r) ->
  (r = inl (KeyError "ETHEREUM_RPC_URL") <-> environ !! "ETHEREUM_RPC_URL" = None)
  /\ forall res, r = inr res ->
       (environ !! "ETH_TX_RECENT_BLOCKS" = None -> blocks_scanned res = 10)
       /\ (forall s, environ !! "ETH_TX_RECENT_BLOCKS" = Some s ->
              Py.int s = inr (blocks_scanned res))
       /\ fetched_blocks tr
          = Py.range (Z.max 0 (latest_block res - blocks_scanned res + 1))
              (latest_block res + 1).
Proof.
  intros Hrun. split.
  - revert Hrun. rewrite asset_eq.
    destruct (environ !! "ETHEREUM_RPC_URL") as [url|];
      [|intros [= <- <- <-]; split; reflexivity].
    destruct (n_blocks_of environ) as [x|N] eqn:HN.
    + intros [= <- <- <-]. split; [|discriminate]. intros [= ->].
      now apply int_error in HN.
    + destruct (eth_block_number (network url)) as [e0|L];
        [intros [= <- <- <-]; split; discriminate|].
      cbn zeta. destruct (for_each _ _ _ fs) as [[t fs1] [x|rows]] eqn:Hloop;
        [|destruct (forallb row_fits (DataFrame rows))];
        intros [= <- <- <-]; [|split; discriminate..].
      split; [|discriminate]. intros [= ->].
      apply for_each_error in Hloop. destruct Hloop. exact I.
  - intros res ->.
    destruct (environ !! "ETHEREUM_RPC_URL") as [url|] eqn:Hurl;
      [|rewrite asset_eq, Hurl in Hrun; discriminate].
    destruct (n_blocks_of environ) as [x|N] eqn:HN;
      [rewrite asset_eq, Hurl, HN in Hrun; discriminate|].
    destruct (eth_block_number (network url)) as [e0|L] eqn:HL;
      [rewrite asset_eq, Hurl, HN, HL in Hrun; discriminate|].
    destruct (run_inr _ _ _ _ _ _ _ _ Hurl HN HL Hrun) as (_ & Hf & _ & _ & ->).
    cbn. unfold Py.getenv in HN. split; [|split; [|exact Hf]].
    + intros Habs. rewrite Habs in HN. now injection HN.
    + intros s Hs. now rewrite Hs in HN.
Qed.

(** C9. With a block count [N <= 0] and a head [L >= 0] the run completes:
    the start block [max(0, L-N+1)] lies beyond [L], no block is requested,
    a file without rows is written at the path for [L], which is
    [data/ethereum/transactions/tx_recent_until_<L>.parquet] with [L] in
    decimal, and the summary reports [blocks_scanned = N] and
    [num_transactions = 0]. *)
Theorem nonpositive_block_count environ fs url N L :
  environ !! "ETHEREUM_RPC_URL" = Some url ->
  n_blocks_of environ = inr N ->
  eth_block_number (network url) = inr L ->
  N <= 0 -> 0 <= L ->
  L < Z.max 0 (L - N + 1)
  /\ exists tr fs',
       asset environ fs
       = (tr, fs', inr {| blocks_scanned := N;
                          latest_block := L;
                          num_transactions := 0;
                          preview := NoRows;
                          file := out_path L |})
       /\ fetched_blocks tr = []
       /\ tr = [RpcBlockNumber (inr L);
                LogInfo (Fetching (Z.max 0 (L - N + 1)) L)]
       /\ files fs' = <[out_path L := []]> (files fs)
       /\ out_path L
          = "data/ethereum/transactions/tx_recent_until_" +:+ pretty L
              +:+ ".parquet"
       /\ files fs' !! ("data/ethereum/transactions/tx_recent_until_"
                          +:+ pretty L +:+ ".parquet") = Some [].
Proof.
  intros Hurl HN HL HN0 HL0. split; [lia|].
  rewrite asset_eq, Hurl, HN, HL. cbn zeta.
  unfold Py.range. rewrite seqZ_nil by lia. cbn.
  eexists _, _. repeat split. apply lookup_insert_eq.
Qed.

(** Writing the same rows for the same head twice is writing them once. *)
Lemma written_twice fs L rows : written (written fs L rows) L rows = written fs L rows.
Proof.
  unfold written. cbn. f_equal.
  - rewrite (assoc_L (∪)). now rewrite union_idemp_L.
  - apply insert_insert_eq.
Qed.

End Run.

(** C7. The run writes its batch, the frame of the rows of the window, to
    the path [data/ethereum/transactions/tx_recent_until_<L>.parquet],
    which is built from the head [L] and nothing else, and changes no other
    file. Running again, possibly against another endpoint or environment,
    with the same head, the same block count and the same blocks in the
    window, writes the same batch to the same path whatever the file
    system holds there, with the same summary: started where the first run
    ended, it replaces the file by an identical one and leaves the file
    system as the first run left it. *)
Theorem rerun_idempotent HexBytes_hex (network network' : string -> Provider)
    (environ environ' : gmap string string) url url' N L fs tr fs' res :
  environ !! "ETHEREUM_RPC_URL" = Some url ->
  Py.int (Py.getenv environ "ETH_TX_RECENT_BLOCKS" "10") = inr N ->
  eth_block_number (network url) = inr L ->
  ethereum_transactions_recent HexBytes_hex network environ fs
  = (tr, fs', inr res) ->
  environ' !! "ETHEREUM_RPC_URL" = Some url' ->
  Py.int (Py.getenv environ' "ETH_TX_RECENT_BLOCKS" "10") = inr N ->
  eth_block_number (network' url') = inr L ->
  (forall n, Z.max 0 (L - N + 1) <= n <= L ->
     eth_get_block (network' url') n = eth_get_block (network url) n) ->
  let batch := DataFrame (flat_map (block_records HexBytes_hex (network url))
                            (Py.range (Z.max 0 (L - N + 1)) (L + 1))) in
  file res
  = "data/ethereum/transactions/tx_recent_until_" +:+ pretty L +:+ ".parquet"
  /\ files fs' = <[file res := batch]> (files fs)
  /\ ethereum_transactions_recent HexBytes_hex network' environ' fs'
     = (tr, fs', inr res)
  /\ forall fs0, exists fs0',
       ethereum_transactions_recent HexBytes_hex network' environ' fs0
       = (tr, fs0', inr res)
       /\ files fs0' = <[file res := batch]> (files fs0)
       /\ files fs0' !! file res = Some batch.
Proof.
  intros Hurl HN HL Hrun Hurl' HN' HL' Hagree batch.
  assert (Hin : forall n, n ∈ Py.range (Z.max 0 (L - N + 1)) (L + 1) ->
                  eth_get_block (network' url') n = eth_get_block (network url) n).
  { unfold Py.range. intros n Hn%elem_of_seqZ. apply Hagree. lia. }
  assert (Hre : forall fs0,
    ethereum_transactions_recent HexBytes_hex network' environ' fs0
    = (tr, written fs0 L batch, inr res) /\ fs' = written fs L batch
      /\ file res = out_path L).
  { intros fs0. rewrite asset_eq, Hurl', HN', HL'. revert Hrun.
    rewrite asset_eq, Hurl, HN, HL. cbn zeta.
    destruct (for_each _ _ _ fs) as [[t fs1] [x|rows]] eqn:Hloop;
      [intros [=]|].
    rewrite (for_each_ext HexBytes_hex (network url) (network' url') L _ Hin
               _ _ fs0 _ _ _ Hloop).
    pose proof (for_each_fs _ _ _ _ _ _ _ _ _ Hloop) as ->.
    apply for_each_inr in Hloop as (_ & _ & _ & ->). cbn [app]. fold batch.
    destruct (forallb row_fits batch); [|intros [=]].
    intros [= <- <- <-]. repeat split. }
  destruct (Hre fs) as (_ & -> & Hfile).
  split; [exact Hfile|]. split; [now rewrite Hfile|]. split.
  - destruct (Hre (written fs L batch)) as (-> & _). now rewrite written_twice.
  - intros fs0. exists (written fs0 L batch).
    destruct (Hre fs0) as (-> & _). rewrite Hfile. cbn.
    repeat split. apply lookup_insert_eq.
Qed.

(** ** The properties on the demo chain

    The run over the last three blocks of [Demo.node]: blocks 98, 99, 100
    with 2, 0 and 5 transactions. *)

Lemma demo_run :
  Demo.asset (Demo.environ "http://node:8545" "3") Demo.empty_fs
  = (Demo.trace3, Demo.fs3, inr Demo.result3).
Proof. vm_compute. reflexivity. Qed.

Lemma fetched_window_witness :
  fetched_blocks Demo.trace3 = seqZ (Z.max 0 (100 - 3 + 1)) (Z.min 3 (100 + 1))
  /\ Z.of_nat (length (fetched_blocks Demo.trace3)) = Z.min 3 (100 + 1)
  /\ head (fetched_blocks Demo.trace3) = Some (Z.max 0 (100 - 3 + 1))
  /\ last (fetched_blocks Demo.trace3) = Some 100
  /\ StronglySorted Z.lt (fetched_blocks Demo.trace3).
Proof.
  apply (fetched_window Demo.hex Demo.network
           (Demo.environ "http://node:8545" "3") Demo.empty_fs
           "http://node:8545" 3 100 Demo.trace3 Demo.fs3 Demo.result3);
    [vm_compute; reflexivity | vm_compute; reflexivity | reflexivity
    | vm_compute; reflexivity | lia | lia].
Defined.

Lemma record_count_witness :
  num_transactions Demo.result3 = 7%nat
  /\ exists rows, files Demo.fs3 !! file Demo.result3 = Some rows
                  /\ length rows = 7%nat.
Proof.
  apply (record_count Demo.hex Demo.network
           (Demo.environ "http://node:8545" "3") Demo.empty_fs
           "http://node:8545" 3 100 Demo.trace3 Demo.fs3 Demo.result3);
    [vm_compute; reflexivity | vm_compute; reflexivity | reflexivity
    | vm_compute; reflexivity].
Defined.

Lemma record_order_witness :
  exists rows,
    files Demo.fs3 !! file Demo.result3 = Some rows
    /\ map (fun r => (block_number r, transaction_index r)) rows
       = [(98, 0); (98, 1); (100, 0); (100, 1); (100, 2); (100, 3); (100, 4)]
    /\ StronglySorted row_lt rows.
Proof.
  destruct (record_order Demo.hex Demo.network
              (Demo.environ "http://node:8545" "3") Demo.empty_fs
              "http://node:8545" 3 100 Demo.trace3 Demo.fs3 Demo.result3)
    as (rows & Hfile & Hrows & _ & _ & _ & _ & _ & Hsorted);
    [vm_compute; reflexivity | vm_compute; reflexivity | reflexivity
    | vm_compute; reflexivity |].
  exists (DataFrame rows). split; [exact Hfile|]. split.
  - rewrite Hrows. vm_compute. reflexivity.
  - apply Hsorted. intros n Hn.
    change (n ∈ [98; 99; 100]) in Hn.
    repeat (apply elem_of_cons in Hn as [->|Hn];
            [unfold index_ordered; cbn; repeat constructor|]).
    now apply elem_of_nil in Hn.
Defined.

Lemma eip1559_fields_witness :
  exists tr fs' res rows,
    Demo2.fee_asset (Demo.environ "http://fees:8545" "2") Demo.empty_fs
    = (tr, fs', inr res)
    /\ files fs' !! file res = Some rows
    /\ Forall2 (fields_copied Demo.hex true true) rows
         (source_txs Demo2.fee_node [2; 3])
    /\ map max_fee_per_gas rows
       = [Float64 9007199254740992; Null; Float64 5].
Proof.
  destruct (Demo2.fee_asset (Demo.environ "http://fees:8545" "2") Demo.empty_fs)
    as [[tr fs'] [x|res]] eqn:Hrun; [vm_compute in Hrun; discriminate|].
  destruct (eip1559_fields Demo.hex (fun _ => Demo2.fee_node)
              (Demo.environ "http://fees:8545" "2") Demo.empty_fs
              "http://fees:8545" 2 3 tr fs' res)
    as (rows & Hfile & Hcopied);
    [vm_compute; reflexivity | vm_compute; reflexivity | reflexivity
    | exact Hrun |].
  exists tr, fs', res, rows. split; [reflexivity|]. split; [exact Hfile|].
  split; [exact Hcopied|].
  vm_compute in Hrun. injection Hrun as _ <- <-.
  vm_compute in Hfile. injection Hfile as <-. reflexivity.
Defined.

Lemma rpc_failure_aborts_witness :
  let tr := [RpcBlockNumber (inr 100); LogInfo (Fetching 98 100);
             RpcGetBlock 98 (inr Demo.block98);
             RpcGetBlock 99 (inl RpcTimeout)] in
  Demo.asset (Demo.environ "http://flaky:8545" "3") Demo.empty_fs
  = (tr, Demo.empty_fs, inl (ProviderError RpcTimeout))
  /\ last tr = Some (RpcGetBlock 99 (inl RpcTimeout)).
Proof.
  intros tr.
  assert (Hrun : Demo.asset (Demo.environ "http://flaky:8545" "3") Demo.empty_fs
                 = (tr, Demo.empty_fs, inl (ProviderError RpcTimeout)))
    by (vm_compute; reflexivity).
  split; [exact Hrun|].
  apply (rpc_failure_aborts Demo.hex Demo.network _ _ _ _ _
           (RpcGetBlock 99 (inl RpcTimeout)) RpcTimeout Hrun);
    [do 3 apply list_elem_of_further; apply list_elem_of_here | reflexivity].
Defined.

Lemma missing_endpoint_witness :
  Demo.asset {[ "ETH_TX_RECENT_BLOCKS" := "3" ]} Demo.empty_fs
  = ([], Demo.empty_fs, inl (KeyError "ETHEREUM_RPC_URL")).
Proof.
  apply (missing_endpoint Demo.hex Demo.network). vm_compute. reflexivity.
Defined.

Lemma rerun_idempotent_witness :
  file Demo.result3 = "data/ethereum/transactions/tx_recent_until_100.parquet"
  /\ files Demo.fs3 = <[file Demo.result3 := Demo.rows3]> (files Demo.empty_fs)
  /\ ethereum_transactions_recent Demo.hex (fun _ => Demo.node)
       (Demo.environ "http://mirror:8545" " +3 ") Demo.fs3
     = (Demo.trace3, Demo.fs3, inr Demo.result3)
  /\ exists fs0',
       ethereum_transactions_recent Demo.hex (fun _ => Demo.node)
         (Demo.environ "http://mirror:8545" " +3 ") Demo.stale_fs
       = (Demo.trace3, fs0', inr Demo.result3)
       /\ files Demo.stale_fs
            !! "data/ethereum/transactions/tx_recent_until_100.parquet"
          = Some []
       /\ files fs0'
            !! "data/ethereum/transactions/tx_recent_until_100.parquet"
          = Some Demo.rows3.
Proof.
  destruct (rerun_idempotent Demo.hex Demo.network (fun _ => Demo.node)
              (Demo.environ "http://node:8545" "3")
              (Demo.environ "http://mirror:8545" " +3 ")
              "http://node:8545" "http://mirror:8545" 3 100
              Demo.empty_fs Demo.trace3 Demo.fs3 Demo.result3)
    as (Hpath & Hfiles & Hagain & Hany);
    [vm_compute; reflexivity | vm_compute; reflexivity | reflexivity
    | vm_compute; reflexivity
    | vm_compute; reflexivity | vm_compute; reflexivity | reflexivity
    | reflexivity |].
  split; [exact Hpath|]. split; [exact Hfiles|]. split; [exact Hagain|].
  destruct (Hany Demo.stale_fs) as (fs0' & Hrun0 & _ & Hbatch).
  exists fs0'. split; [exact Hrun0|]. split; [reflexivity|exact Hbatch].
Defined.

Lemma env_names_witness :
  (inr Demo.result3 = inl (KeyError "ETHEREUM_RPC_URL")
   <-> Demo.environ "http://node:8545" "3" !! "ETHEREUM_RPC_URL" = None)
  /\ Py.int "3" = inr (blocks_scanned Demo.result3)
  /\ fetched_blocks Demo.trace3 = Py.range (Z.max 0 (100 - 3 + 1)) (100 + 1).
Proof.
  destruct (env_names Demo.hex Demo.network
              (Demo.environ "http://node:8545" "3") Demo.empty_fs
              Demo.trace3 Demo.fs3 (inr Demo.result3))
    as [Hurl Hres]; [vm_compute; reflexivity|].
  destruct (Hres _ eq_refl) as (_ & Hn & Hwin).
  split; [exact Hurl|]. split; [|exact Hwin].
  apply Hn. vm_compute. reflexivity.
Defined.

Lemma nonpositive_block_count_witness :
  100 < Z.max 0 (100 - -2 + 1)
  /\ exists tr fs',
       Demo.asset (Demo.environ "http://node:8545" "-2") Demo.empty_fs
       = (tr, fs',
          inr {| blocks_scanned := -2;
                 latest_block := 100;
                 num_transactions := 0;
                 preview := NoRows;
                 file := "data/ethereum/transactions/tx_recent_until_100.parquet" |})
       /\ fetched_blocks tr = []
       /\ tr = [RpcBlockNumber (inr 100); LogInfo (Fetching 103 100)]
       /\ files fs'
          = <["data/ethereum/transactions/tx_recent_until_100.parquet" := []]>
              (files Demo.empty_fs)
       /\ out_path 100
          = "data/ethereum/transactions/tx_recent_until_100.parquet"
       /\ files fs'
            !! "data/ethereum/transactions/tx_recent_until_100.parquet"
          = Some [].
Proof.
  exact (nonpositive_block_count Demo.hex Demo.network
           (Demo.environ "http://node:8545" "-2") Demo.empty_fs
           "http://node:8545" (-2) 100
           ltac:(vm_compute; reflexivity) ltac:(vm_compute; reflexivity)
           ltac:(reflexivity) ltac:(lia) ltac:(lia)).
Defined.

Lemma records_grouped_witness :
  exists rows,
    files Demo.fs3 !! file Demo.result3 = Some rows
    /\ (forall r, r ∈ rows ->
          Z.max 0 (100 - 3 + 1) <= block_number r <= 100
          /\ exists b, eth_get_block Demo.node (block_number r) = inr b
               /\ Datetime.isoformat_utc (timestamp b) = inr (block_timestamp r))
    /\ (forall i j k ri rj rk, (i <= j <= k)%nat ->
          rows !! i = Some ri -> rows !! j = Some rj -> rows !! k = Some rk ->
          block_number ri = block_number rk ->
          block_number rj = block_number ri)
    /\ (forall r1 r2, r1 ∈ rows -> r2 ∈ rows ->
          block_number r1 = block_number r2 ->
          block_timestamp r1 = block_timestamp r2).
Proof.
  apply (records_grouped Demo.hex Demo.network
           (Demo.environ "http://node:8545" "3") Demo.empty_fs
           "http://node:8545" 3 100 Demo.trace3 Demo.fs3 Demo.result3);
    [vm_compute; reflexivity | vm_compute; reflexivity | reflexivity
    | vm_compute; reflexivity].
Defined.

Example demo_near_genesis :
  exists tr fs' res,
    Demo.asset (Demo.environ "http://genesis:8545" "10") Demo.empty_fs
    = (tr, fs', inr res)
    /\ fetched_blocks tr = [0; 1] /\ blocks_scanned res = 10.
Proof.
  destruct (Demo.asset (Demo.environ "http://genesis:8545" "10") Demo.empty_fs)
    as [[tr fs'] [x|res]] eqn:Hrun; vm_compute in Hrun; [discriminate|].
  exists tr, fs', res. injection Hrun as <- _ <-. repeat split.
Qed.

Example demo_node_down :
  Demo.asset (Demo.environ "http://down:8545" "3") Demo.empty_fs
  = ([RpcBlockNumber (inl (RpcConnectionError "connection refused"))],
     Demo.empty_fs,
     inl (ProviderError (RpcConnectionError "connection refused"))).
Proof. vm_compute. reflexivity. Qed.

Example demo_bad_count :
  Demo.asset (Demo.environ "http://node:8545" "ten") Demo.empty_fs
  = ([], Demo.empty_fs, inl (ValueError "ten")).
Proof. vm_compute. reflexivity. Qed.

(** C8, as the specification words it, fails on the code. With [RPC_URL]
    set (and [ETHEREUM_RPC_URL] not) the run still raises for the missing
    endpoint; with [RECENT_BLOCKS] set to 3 (and [ETH_TX_RECENT_BLOCKS] not)
    the run scans the default ten blocks, 91 to 100. *)
Lemma env_names_counterexample :
  Demo.asset {[ "RPC_URL" := "http://node:8545"; "RECENT_BLOCKS" := "3" ]}
    Demo.empty_fs
  = ([], Demo.empty_fs, inl (KeyError "ETHEREUM_RPC_URL"))
  /\ exists tr fs' res,
       Demo.asset {[ "ETHEREUM_RPC_URL" := "http://node:8545";
                     "RECENT_BLOCKS" := "3" ]} Demo.empty_fs
       = (tr, fs', inr res)
       /\ blocks_scanned res = 10
       /\ fetched_blocks tr = [91; 92; 93; 94; 95; 96; 97; 98; 99; 100].
Proof.
  split; [vm_compute; reflexivity|].
  destruct (Demo.asset {[ "ETHEREUM_RPC_URL" := "http://node:8545";
                          "RECENT_BLOCKS" := "3" ]} Demo.empty_fs)
    as [[tr fs'] [x|res]] eqn:Hrun; vm_compute in Hrun; [discriminate|].
  exists tr, fs', res. split; [reflexivity|].
  injection Hrun as <- _ <-. split; reflexivity.
Qed.

(** * Further properties of the asset *)

(** ** More on the loop *)

Section LoopMore.

Variable HexBytes_hex : list Byte.byte -> string.
Variable w3 : Provider.
Variable latest : Z.

Local Abbreviation body := (fetch_block HexBytes_hex w3 latest).

(** How a failing loop fails: on a request, whose error it raises, or on
    the timestamp of the block it has just fetched. *)
Lemma for_each_inl ns : forall rows fs tr fs' x,
  for_each body ns rows fs = (tr, fs', inl x) ->
  (exists e c, x = ProviderError e /\ last tr = Some c /\ rpc_failed c = Some e)
  \/ (exists n b, n ∈ ns /\ x = TimestampError (timestamp b)
        /\ last tr = Some (RpcGetBlock n (inr b))
        /\ ~ (Datetime.MIN_TS <= timestamp b <= Datetime.MAX_TS)).
Proof.
  induction ns as [|n ns IH]; intros rows fs tr fs' x; [intros [=]|].
  rewrite for_each_cons.
  destruct (body rows n fs) as [[t fs1] [y|rows1]] eqn:Hb.
  - intros [= <- <- ->]. rewrite fetch_block_eq in Hb.
    destruct (eth_get_block w3 n) as [e|b].
    + injection Hb as <- <- <-. left. exists e, (RpcGetBlock n (inl e)). auto.
    + destruct (Datetime.isoformat_utc (timestamp b)) as [z|ts] eqn:Hts;
        [|discriminate].
      injection Hb as <- <- <-. right. exists n, b.
      pose proof (isoformat_error _ _ Hts) as ->.
      split; [left|]. split; [reflexivity|]. split; [reflexivity|].
      unfold Datetime.isoformat_utc in Hts.
      destruct (_ && _) eqn:Hr in Hts.
      * destruct (Datetime.ord2ymd _) as [[? ?] ?] in Hts. discriminate.
      * lia.
  - destruct (for_each body ns rows1 fs1) as [[t1 fs2] r1] eqn:Hl.
    intros [= <- <- ->].
    destruct (IH _ _ _ _ _ Hl) as [(e & c & -> & Hlast & Hc)
                                  |(m & b & Hm & -> & Hlast & Hts)].
    + left. exists e, c. split; [reflexivity|].
      split; [now apply last_app_nonempty|exact Hc].
    + right. exists m, b. split; [now right|]. split; [reflexivity|].
      split; [now apply last_app_nonempty|exact Hts].
Qed.

(** Whatever its outcome, the loop requests a prefix of [ns], and all its
    events are fetches and progress lines. *)
Lemma for_each_prefix ns : forall rows fs tr fs' r,
  for_each body ns rows fs = (tr, fs', r) ->
  fetched_blocks tr `prefix_of` ns /\ Forall in_loop tr.
Proof.
  induction ns as [|n ns IH]; intros rows fs tr fs' r.
  - intros [= <- <- <-]. split; [reflexivity|constructor].
  - rewrite for_each_cons, fetch_block_eq.
    destruct (eth_get_block w3 n) as [e|b].
    { intros [= <- <- <-]. split; [|repeat constructor].
      exists ns. reflexivity. }
    destruct (Datetime.isoformat_utc (timestamp b)) as [z|ts].
    { intros [= <- <- <-]. split; [|repeat constructor].
      exists ns. reflexivity. }
    cbn beta iota zeta.
    match goal with
    | |- context [for_each ?f ns ?rs fs] =>
        destruct (for_each f ns rs fs) as [[t1 fs3] r1] eqn:Hl
    end.
    intros [= <- <- <-]. apply IH in Hl as [Hp Hall].
    split.
    + destruct ((n mod 5 =? 0) || (n =? latest)); cbn; now apply prefix_cons.
    + destruct ((n mod 5 =? 0) || (n =? latest)); repeat constructor; exact Hall.
Qed.

(** The progress lines of a loop over consecutive blocks that runs to its
    end: one for each block whose number is a multiple of 5 or is [latest],
    carrying the number of rows gathered so far. *)
Lemma for_each_logs k : forall m rows fs tr fs' rows',
  for_each body (seqZ m (Z.of_nat k)) rows fs = (tr, fs', inr rows') ->
  processed_logs tr
  = map (fun n => (n, (length rows
                       + sum_list (map (tx_count w3) (seqZ m (n + 1 - m))))%nat))
      (List.filter (fun n => (n mod 5 =? 0) || (n =? latest))
         (seqZ m (Z.of_nat k))).
Proof.
  induction k as [|k IH]; intros m rows fs tr fs' rows'.
  - rewrite seqZ_nil by lia. now intros [= <- <- <-].
  - rewrite seqZ_cons by lia.
    replace (Z.pred (Z.of_nat (S k))) with (Z.of_nat k) by lia.
    rewrite for_each_cons, fetch_block_eq.
    destruct (eth_get_block w3 m) as [e|b] eqn:Hb; [intros [=]|].
    destruct (Datetime.isoformat_utc (timestamp b)) as [z|ts]; [intros [=]|].
    cbn beta iota zeta.
    match goal with
    | |- context [for_each ?f ?l ?rs fs] =>
        destruct (for_each f l rs fs) as [[t1 fs3] r1] eqn:Hl
    end.
    intros [= <- <- ->]. apply IH in Hl.
    assert (Hrest :
      map (fun n => (n, (length (rows ++ map (row_of HexBytes_hex m ts)
                                           (transactions b))
                         + sum_list (map (tx_count w3)
                                       (seqZ (Z.succ m) (n + 1 - Z.succ m))))%nat))
        (List.filter (fun n => (n mod 5 =? 0) || (n =? latest))
           (seqZ (Z.succ m) (Z.of_nat k)))
      = map (fun n => (n, (length rows
                           + sum_list (map (tx_count w3) (seqZ m (n + 1 - m))))%nat))
          (List.filter (fun n => (n mod 5 =? 0) || (n =? latest))
             (seqZ (Z.succ m) (Z.of_nat k)))).
    { apply map_ext_in. intros n [Hn _]%filter_In.
      apply list_elem_of_In, elem_of_seqZ in Hn.
      rewrite (seqZ_cons m) by lia.
      replace (Z.pred (n + 1 - m)) with (n + 1 - Z.succ m) by lia.
      cbn. unfold tx_count at 2. rewrite Hb, length_app, length_map.
      f_equal. lia. }
    cbn [List.filter]. unfold processed_logs in Hl |- *.
    destruct ((m mod 5 =? 0) || (m =? latest)); cbn [map app omap list_omap];
      rewrite Hl, Hrest; [|reflexivity].
    f_equal. f_equal.
    replace (m + 1 - m) with 1 by lia.
    change (seqZ m 1) with [m]. cbn. unfold tx_count. rewrite Hb.
    rewrite length_app, length_map. lia.
Qed.

End LoopMore.

(** ** More on the run *)

Lemma isoformat_inr_iff ts :
  (exists s, Datetime.isoformat_utc ts = inr s)
  <-> Datetime.MIN_TS <= ts <= Datetime.MAX_TS.
Proof.
  unfold Datetime.isoformat_utc.
  destruct (_ && _) eqn:Hr.
  - destruct (Datetime.ord2ymd _) as [[y m] d]. split; [lia|eauto].
  - split; [intros [s [=]]|lia].
Qed.

Lemma seqZ_to_nat m len : seqZ m len = seqZ m (Z.of_nat (Z.to_nat len)).
Proof. unfold seqZ. now rewrite Nat2Z.id. Qed.

Section RunMore.

Variable HexBytes_hex : list Byte.byte -> string.
Variable network : string -> Provider.

Local Abbreviation asset := (ethereum_transactions_recent HexBytes_hex network).
Local Notation "'n_blocks_of' environ" :=
  (Py.int (Py.getenv environ "ETH_TX_RECENT_BLOCKS" "10"))
  (at level 10, environ at level 9, only parsing).

(** A run that completes had its endpoint, its block count and the head. *)
Lemma run_inr_ex environ fs tr fs' res :
  asset environ fs = (tr, fs', inr res) ->
  exists url N L,
    environ !! "ETHEREUM_RPC_URL" = Some url
    /\ n_blocks_of environ = inr N
    /\ eth_block_number (network url) = inr L.
Proof.
  rewrite asset_eq.
  destruct (environ !! "ETHEREUM_RPC_URL") as [url|]; [|intros [=]].
  destruct (n_blocks_of environ) as [x|N]; [intros [=]|].
  destruct (eth_block_number (network url)) as [e|L] eqn:HL; [intros [=]|].
  intros _. now exists url, N, L.
Qed.

(** X1. When the endpoint is configured but the block count, a string of
    ASCII characters, is not an integer literal, the run raises
    [ValueError] for that literal before any call to the node, and leaves
    the file system as it is. *)
Theorem bad_block_count environ fs url x :
  environ !! "ETHEREUM_RPC_URL" = Some url ->
  Py.is_ascii (Py.getenv environ "ETH_TX_RECENT_BLOCKS" "10") = true ->
  n_blocks_of environ = inl x ->
  asset environ fs
  = ([], fs, inl (ValueError (Py.getenv environ "ETH_TX_RECENT_BLOCKS" "10"))).
Proof.
  intros Hurl _ HN. rewrite asset_eq, Hurl, HN.
  now rewrite (int_error _ _ HN).
Qed.

(** A run that raises changes no file and removes no directory. *)
Lemma run_inl_files environ fs tr fs' x :
  asset environ fs = (tr, fs', inl x) ->
  files fs' = files fs /\ dirs fs ⊆ dirs fs'.
Proof.
  rewrite asset_eq.
  destruct (environ !! "ETHEREUM_RPC_URL") as [url|];
    [|now intros [= <- <- <-]].
  destruct (n_blocks_of environ) as [y|N]; [now intros [= <- <- <-]|].
  destruct (eth_block_number (network url)) as [e|L];
    [now intros [= <- <- <-]|].
  cbn zeta. destruct (for_each _ _ _ fs) as [[t fs1] [y|rows]] eqn:Hloop;
    [|destruct (forallb row_fits (DataFrame rows))];
    intros [= <- <- <-]; apply for_each_fs in Hloop as ->.
  - split; reflexivity.
  - split; [reflexivity|]. cbn. apply union_subseteq_r.
Qed.

(** X2. A run that raises changes no file. It leaves the directories as
    they are as well, unless what it raises is the [OverflowError] of the
    save step: by then [makedirs] has run, and the three directories of the
    output path exist. (The block count is taken to be a string of ASCII
    characters.) *)
Theorem abort_leaves_files environ fs tr fs' x :
  Py.is_ascii (Py.getenv environ "ETH_TX_RECENT_BLOCKS" "10") = true ->
  asset environ fs = (tr, fs', inl x) ->
  files fs' = files fs
  /\ (x <> OverflowError -> fs' = fs)
  /\ (x = OverflowError -> fs' = made_dirs fs).
Proof.
  intros _. rewrite asset_eq.
  destruct (environ !! "ETHEREUM_RPC_URL") as [url|];
    [|intros [= <- <- <-]; repeat split; discriminate].
  destruct (n_blocks_of environ) as [y|N] eqn:HN.
  { intros [= <- <- <-]. apply int_error in HN as ->.
    repeat split; discriminate. }
  destruct (eth_block_number (network url)) as [e|L];
    [intros [= <- <- <-]; repeat split; discriminate|].
  cbn zeta. destruct (for_each _ _ _ fs) as [[t fs1] [y|rows]] eqn:Hloop;
    [|destruct (forallb row_fits (DataFrame rows))];
    intros [= <- <- <-].
  - pose proof (for_each_fs _ _ _ _ _ _ _ _ _ Hloop) as ->.
    split; [reflexivity|]. split; [reflexivity|]. intros ->.
    apply for_each_inl in Hloop as [(e & c & [=] & _)|(n & b & _ & [=] & _)].
  - apply for_each_fs in Hloop as ->.
    split; [reflexivity|]. split; [intros H; now destruct H|reflexivity].
Qed.

(** X4. Once the head [L] is known, every run, completed or not, opens
    with the call for the head and the [Fetching] line, calls for the head
    only that once, and calls [get_block] for a prefix of the window
    [max(0, L-N+1)..L]: no block outside it, none twice, none out of turn,
    never a negative number and never one beyond the head. (These are the
    calls of the asset; how often web3 sends the request of one call is not
    its concern.) *)
Theorem request_discipline environ fs url N L tr fs' r :
  environ !! "ETHEREUM_RPC_URL" = Some url ->
  n_blocks_of environ = inr N ->
  eth_block_number (network url) = inr L ->
  asset environ fs = (tr, fs', r) ->
  exists rest,
    tr = RpcBlockNumber (inr L)
           :: LogInfo (Fetching (Z.max 0 (L - N + 1)) L) :: rest
    /\ Forall in_loop rest
    /\ fetched_blocks tr `prefix_of` Py.range (Z.max 0 (L - N + 1)) (L + 1)
    /\ NoDup (fetched_blocks tr)
    /\ Forall (fun n => 0 <= n <= L) (fetched_blocks tr).
Proof.
  intros Hurl HN HL. rewrite asset_eq, Hurl, HN, HL. cbn zeta.
  destruct (for_each _ _ _ fs) as [[t fs1] r1] eqn:Hloop.
  pose proof (for_each_prefix _ _ _ _ _ _ _ _ _ Hloop) as [Hp Hall].
  assert (Hnd : NoDup (fetched_blocks t)).
  { destruct Hp as [k Hk].
    pose proof (NoDup_seqZ (Z.max 0 (L - N + 1)) (L + 1 - Z.max 0 (L - N + 1)))
      as Hw.
    unfold Py.range in Hk. rewrite Hk in Hw. now apply NoDup_app in Hw as [? _]. }
  assert (Hbd : Forall (fun n => 0 <= n <= L) (fetched_blocks t)).
  { destruct Hp as [k Hk]. apply Forall_forall. intros n Hn.
    assert (Hw : n ∈ Py.range (Z.max 0 (L - N + 1)) (L + 1))
      by (rewrite Hk; apply elem_of_app; now left).
    unfold Py.range in Hw. apply elem_of_seqZ in Hw. lia. }
  destruct r1 as [y|rows]; [|destruct (forallb row_fits (DataFrame rows))];
    intros [= <- <- <-]; exists t; auto.
Qed.

(** X5. In a run that completes, a progress line is logged for exactly
    those blocks of the window whose number is a multiple of 5 or is the
    head, in ascending order, and the row count it shows for block [n] is
    the number of transactions in the blocks from the start block to [n]. *)
Theorem progress_lines environ fs url N L tr fs' res :
  environ !! "ETHEREUM_RPC_URL" = Some url ->
  n_blocks_of environ = inr N ->
  eth_block_number (network url) = inr L ->
  asset environ fs = (tr, fs', inr res) ->
  processed_logs tr
  = map (fun n => (n, sum_list (map (tx_count (network url))
                                  (Py.range (Z.max 0 (L - N + 1)) (n + 1)))))
      (List.filter (fun n => (n mod 5 =? 0) || (n =? L))
         (Py.range (Z.max 0 (L - N + 1)) (L + 1))).
Proof.
  intros Hurl HN HL. rewrite asset_eq, Hurl, HN, HL. cbn zeta.
  destruct (for_each _ _ _ fs) as [[t fs1] [y|rows]] eqn:Hloop;
    [intros [=]|].
  destruct (forallb row_fits (DataFrame rows)); intros [= <- <- <-].
  unfold Py.range in Hloop |- *. rewrite seqZ_to_nat in Hloop |- *.
  apply for_each_logs in Hloop. exact Hloop.
Qed.

(** X6. In a run that completes, the preview is the text [(no rows)]
    exactly when the batch is empty; otherwise it shows the first rows of
    the written batch, ten of them or all if there are fewer. *)
Theorem preview_head environ fs tr fs' res :
  asset environ fs = (tr, fs', inr res) ->
  exists rows,
    files fs' !! file res = Some rows
    /\ (preview res = NoRows <-> rows = [])
    /\ (preview res = NoRows <-> num_transactions res = 0%nat)
    /\ forall p, preview res = Head p ->
         p = take 10 rows /\ p `prefix_of` rows
         /\ length p = Nat.min 10 (num_transactions res)
         /\ p <> [].
Proof.
  intros Hrun.
  destruct (run_inr_ex _ _ _ _ _ Hrun) as (url & N & L & Hurl & HN & HL).
  destruct (run_inr _ _ _ _ _ _ _ _ _ _ Hurl HN HL Hrun)
    as (_ & _ & _ & -> & ->).
  cbn. eexists. split; [apply lookup_insert_eq|].
  destruct (DataFrame _) as [|r0 rows]; cbn.
  - repeat split; auto; discriminate.
  - split; [split; discriminate|]. split; [split; discriminate|].
    intros p [= <-]. split; [reflexivity|].
    split; [apply (prefix_take (r0 :: rows) 10)|].
    split; [|discriminate].
    change (r0 :: take 9 rows) with (take 10 (r0 :: rows)).
    rewrite length_take. cbn. lia.
Qed.

(** X7. No run removes a file or a directory. A run that completes adds
    the three directories of the output path and writes the one file it
    reports; every other path holds what it held before. *)
Theorem other_files_untouched environ fs tr fs' r :
  asset environ fs = (tr, fs', r) ->
  dirs fs ⊆ dirs fs'
  /\ (forall p, is_Some (files fs !! p) -> is_Some (files fs' !! p))
  /\ forall res, r = inr res ->
       (forall p, p <> file res -> files fs' !! p = files fs !! p)
       /\ is_Some (files fs' !! file res)
       /\ dirs fs' = {[ "data"; "data/ethereum"; "data/ethereum/transactions" ]}
                       ∪ dirs fs.
Proof.
  intros Hrun. destruct r as [x|res].
  - apply run_inl_files in Hrun as [Hf Hd].
    split; [exact Hd|]. split; [now rewrite Hf|]. intros res [=].
  - destruct (run_inr_ex _ _ _ _ _ Hrun) as (url & N & L & Hurl & HN & HL).
    destruct (run_inr _ _ _ _ _ _ _ _ _ _ Hurl HN HL Hrun)
      as (_ & _ & _ & -> & Hres).
    unfold written; cbn. split; [apply union_subseteq_r|]. split.
    + intros p Hp. destruct (decide (out_path L = p)) as [<-|Hne].
      * rewrite lookup_insert_eq. eauto.
      * now rewrite lookup_insert_ne.
    + intros res' [= <-]. rewrite Hres. cbn. split; [|split].
      * intros p Hp. now rewrite lookup_insert_ne.
      * rewrite lookup_insert_eq. eauto.
      * reflexivity.
Qed.

(** X8. Counting the requests of a completed run with head [L >= 0]: the
    run fetches [max(0, min(N, L+1))] blocks, so the reported
    [blocks_scanned], which is the configured [N], is the number of blocks
    actually fetched exactly when [0 <= N <= L+1]. *)
Theorem scanned_versus_fetched environ fs url N L tr fs' res :
  environ !! "ETHEREUM_RPC_URL" = Some url ->
  n_blocks_of environ = inr N ->
  eth_block_number (network url) = inr L ->
  asset environ fs = (tr, fs', inr res) ->
  0 <= L ->
  Z.of_nat (length (fetched_blocks tr)) = Z.max 0 (Z.min N (L + 1))
  /\ (blocks_scanned res = Z.of_nat (length (fetched_blocks tr))
      <-> 0 <= N <= L + 1).
Proof.
  intros Hurl HN HL Hrun HL0.
  destruct (run_inr _ _ _ _ _ _ _ _ _ _ Hurl HN HL Hrun)
    as (_ & -> & _ & _ & ->).
  unfold Py.range. rewrite length_seqZ. cbn. lia.
Qed.

(** X10. Two completed runs against the same endpoint at the same head, the
    second with a block count at least that of the first, report the same
    file, and the batch of the second ends with the rows of the first:
    widening the window puts rows of older blocks in front. The rows of the
    first batch are kept but for this: a fee column that the wider window
    stores as [float64] holds their fees as floats. *)
Theorem wider_window environ environ' fs fs0 url N N' L
    tr tr' fs' fs'' res res' :
  environ !! "ETHEREUM_RPC_URL" = Some url ->
  environ' !! "ETHEREUM_RPC_URL" = Some url ->
  n_blocks_of environ = inr N ->
  n_blocks_of environ' = inr N' ->
  eth_block_number (network url) = inr L ->
  asset environ fs = (tr, fs', inr res) ->
  asset environ' fs0 = (tr', fs'', inr res') ->
  N <= N' ->
  file res' = file res
  /\ exists rows rows' older g1 g2,
       files fs' !! file res = Some rows
       /\ files fs'' !! file res' = Some rows'
       /\ rows' = older ++ map (coerce_row g1 g2) rows
       /\ g1 = mixed (map max_fee_per_gas rows')
       /\ g2 = mixed (map max_priority_fee_per_gas rows')
       /\ (num_transactions res <= num_transactions res')%nat.
Proof.
  intros Hurl Hurl' HN HN' HL Hrun Hrun' Hle.
  destruct (run_inr _ _ _ _ _ _ _ _ _ _ Hurl HN HL Hrun)
    as (_ & _ & _ & -> & ->).
  destruct (run_inr _ _ _ _ _ _ _ _ _ _ Hurl' HN' HL Hrun')
    as (_ & _ & _ & -> & ->).
  cbn. split; [reflexivity|].
  set (rec := block_records HexBytes_hex (network url)).
  assert (Hsplit : exists older,
            flat_map rec (Py.range (Z.max 0 (L - N' + 1)) (L + 1))
            = older ++ flat_map rec (Py.range (Z.max 0 (L - N + 1)) (L + 1))).
  { unfold Py.range.
    destruct (Z_le_gt_dec (Z.max 0 (L - N + 1)) (L + 1)) as [Hin|Hout].
    - exists (flat_map rec (seqZ (Z.max 0 (L - N' + 1))
                          (Z.max 0 (L - N + 1) - Z.max 0 (L - N' + 1)))).
      rewrite <- flat_map_app. f_equal.
      replace (L + 1 - Z.max 0 (L - N' + 1))
        with ((Z.max 0 (L - N + 1) - Z.max 0 (L - N' + 1))
              + (L + 1 - Z.max 0 (L - N + 1))) by lia.
      rewrite seqZ_app by lia. do 2 f_equal. lia.
    - rewrite (seqZ_nil (Z.max 0 (L - N + 1))) by lia.
      eexists. cbn. now rewrite app_nil_r. }
  destruct Hsplit as [older Hsplit]. rewrite Hsplit.
  eexists _, _, _, _, _. split; [apply lookup_insert_eq|].
  split; [apply lookup_insert_eq|]. split; [apply DataFrame_app|].
  destruct (mixed_DataFrame
              (older ++ flat_map rec (Py.range (Z.max 0 (L - N + 1)) (L + 1))))
    as [-> ->].
  split; [reflexivity|]. split; [reflexivity|].
  rewrite !length_DataFrame, length_app. lia.
Qed.

End RunMore.

(** ** The output path *)

Lemma string_length_app (a b : string) :
  String.length (a +:+ b) = (String.length a + String.length b)%nat.
Proof. induction a as [|c a IH]; simpl; [reflexivity|f_equal; exact IH]. Qed.

Lemma string_app_inv_head (p a b : string) : p +:+ a = p +:+ b -> a = b.
Proof. induction p as [|c p IH]; cbn; [auto|]. intros [= H]. auto. Qed.

Lemma string_app_inv_tail (s a b : string) : a +:+ s = b +:+ s -> a = b.
Proof.
  revert b. induction a as [|c a IH]; intros [|d b]; simpl; intros H.
  - reflexivity.
  - apply (f_equal String.length) in H.
    rewrite !string_length_app in H. simpl in H. lia.
  - apply (f_equal String.length) in H.
    rewrite !string_length_app in H. simpl in H. lia.
  - injection H as -> H. f_equal. now apply IH.
Qed.

Lemma out_path_inj_aux L1 L2 : out_path L1 = out_path L2 -> L1 = L2.
Proof.
  unfold out_path. intros H.
  apply string_app_inv_head, string_app_inv_tail in H.
  now apply (inj pretty).
Qed.

(** X11. Different heads give different output paths: the batches of runs
    at different heads never land in the same file. *)
Theorem out_path_inj L1 L2 : out_path L1 = out_path L2 -> L1 = L2.
Proof.
  unfold out_path. intros H.
  apply string_app_inv_head, string_app_inv_tail in H.
  now apply (inj pretty).
Qed.

Lemma file_of_head HexBytes_hex network environ fs tr fs' res :
  ethereum_transactions_recent HexBytes_hex network environ fs
  = (tr, fs', inr res) ->
  file res = out_path (latest_block res)
  /\ exists rows, files fs' = <[file res := rows]> (files fs).
Proof.
  intros Hrun.
  destruct (run_inr_ex _ _ _ _ _ _ _ Hrun) as (url & N & L & Hurl & HN & HL).
  destruct (run_inr _ _ _ _ _ _ _ _ _ _ Hurl HN HL Hrun)
    as (_ & _ & _ & -> & ->).
  cbn. split; [reflexivity|]. eauto.
Qed.

(** X12. A completed run followed by a completed run at another head,
    against whatever endpoint and with whatever block count, leaves the
    file of the first run in place with its content, next to the file of
    the second. *)
Theorem distinct_heads_keep_both HexBytes_hex
    (network network' : string -> Provider)
    (environ environ' : gmap string string)
    fs tr1 fs1 res1 tr2 fs2 res2 :
  ethereum_transactions_recent HexBytes_hex network environ fs
  = (tr1, fs1, inr res1) ->
  ethereum_transactions_recent HexBytes_hex network' environ' fs1
  = (tr2, fs2, inr res2) ->
  latest_block res1 <> latest_block res2 ->
  file res1 <> file res2
  /\ files fs2 !! file res1 = files fs1 !! file res1
  /\ is_Some (files fs2 !! file res1)
  /\ is_Some (files fs2 !! file res2).
Proof.
  intros Hrun1 Hrun2 Hne.
  destruct (file_of_head _ _ _ _ _ _ _ Hrun1) as [Hf1 [rows1 Hfs1]].
  destruct (file_of_head _ _ _ _ _ _ _ Hrun2) as [Hf2 [rows2 Hfs2]].
  assert (Hpaths : file res1 <> file res2).
  { rewrite Hf1, Hf2. intros H%out_path_inj_aux. contradiction. }
  split; [exact Hpaths|].
  assert (Hkeep : files fs2 !! file res1 = files fs1 !! file res1)
    by (rewrite Hfs2; now apply lookup_insert_ne).
  split; [exact Hkeep|]. split.
  - rewrite Hkeep, Hfs1, lookup_insert_eq. eauto.
  - rewrite Hfs2, lookup_insert_eq. eauto.
Qed.

(** ** Reading back a printed integer *)

Lemma pretty_char_digit d :
  (d < 10)%N ->
  Py.digit_of (pretty_N_char d) = Some (Z.of_N d)
  /\ Py.is_space (pretty_N_char d) = false
  /\ pretty_N_char d <> "-"%char /\ pretty_N_char d <> "+"%char.
Proof.
  intros Hd.
  assert (d = 0 \/ d = 1 \/ d = 2 \/ d = 3 \/ d = 4 \/ d = 5 \/ d = 6
          \/ d = 7 \/ d = 8 \/ d = 9)%N as Hcases by lia.
  repeat (destruct Hcases as [->|Hcases]); try subst d;
    (split; [reflexivity|]; split; [reflexivity|]; split; discriminate).
Qed.

(** Reading the digits that [pretty] prints for [x] shifts the accumulator
    by as many decimal places and adds [x]. *)
Lemma int_digits_pretty x :
  exists k, 0 <= k /\ forall acc s,
    Py.int_digits acc (pretty_N_go x s)
    = Py.int_digits (acc * 10 ^ k + Z.of_N x) s.
Proof.
  induction (N.lt_wf_0 x) as [x _ IH].
  destruct (decide (x = 0)%N) as [->|Hx].
  - exists 0. split; [lia|]. intros acc s. rewrite pretty_N_go_0.
    f_equal. lia.
  - destruct (IH (x `div` 10)%N) as (k & Hk & Hgo).
    { apply N.div_lt; lia. }
    exists (k + 1). split; [lia|]. intros acc s.
    rewrite pretty_N_go_step, Hgo by lia. cbn [Py.int_digits].
    destruct (pretty_char_digit (x `mod` 10)%N) as (-> & _);
      [apply N.mod_lt; lia|].
    f_equal. rewrite Z.pow_add_r, Z.pow_1_r by lia.
    rewrite N2Z.inj_div, N2Z.inj_mod. cbn [Z.of_N].
    pose proof (Z.div_mod (Z.of_N x) 10 ltac:(lia)) as Hdm.
    set (q := Z.of_N x `div` 10) in *. set (m := Z.of_N x `mod` 10) in *.
    clearbody q m. rewrite Hdm. ring.
Qed.

(** What [pretty] prints for a positive number starts with a digit. *)
Lemma pretty_go_head x : forall s,
  (0 < x)%N ->
  exists d r, (d < 10)%N /\ pretty_N_go x s = String (pretty_N_char d) r.
Proof.
  induction (N.lt_wf_0 x) as [x _ IH]. intros s Hx.
  rewrite pretty_N_go_step by exact Hx.
  destruct (decide (x `div` 10 = 0)%N) as [Hz|Hnz].
  - rewrite Hz, pretty_N_go_0. exists (x `mod` 10)%N, s.
    split; [apply N.mod_lt; lia|reflexivity].
  - apply IH; [apply N.div_lt; lia|].
    now apply N.neq_0_lt_0.
Qed.

Lemma int_digit_led c r n :
  Py.is_space c = false -> c <> "-"%char -> c <> "+"%char ->
  is_Some (Py.digit_of c) ->
  Py.int_digits 0 (String c r) = Some n ->
  Py.int (String c r) = inr n.
Proof.
  intros Hsp Hm Hp Hd Hn. unfold Py.int. cbn [Py.lstrip]. rewrite Hsp.
  assert (Hsign : match String c r with
                  | String "-" r0 => (-1, r0)
                  | String "+" r0 => (1, r0)
                  | _ => (1, String c r)
                  end = (1, String c r)).
  { destruct c as [[] [] [] [] [] [] [] []]; try reflexivity; congruence. }
  rewrite Hsign. cbn [Py.starts_with_digit].
  rewrite bool_decide_eq_true_2 by exact Hd. rewrite Hn.
  f_equal. lia.
Qed.

Lemma int_pretty_go x :
  (0 < x)%N -> Py.int (pretty_N_go x "") = inr (Z.of_N x).
Proof.
  intros Hx. destruct (pretty_go_head x "" Hx) as (d & r & Hd & Heq).
  destruct (pretty_char_digit d Hd) as (Hdig & Hsp & Hm & Hp).
  assert (Hn : Py.int_digits 0 (pretty_N_go x "") = Some (Z.of_N x)).
  { destruct (int_digits_pretty x) as (k & _ & ->). cbn. reflexivity. }
  rewrite Heq in Hn |- *.
  apply (int_digit_led _ _ _ Hsp Hm Hp (ex_intro _ _ Hdig) Hn).
Qed.

(** [int(str(n)) == n] *)
Lemma int_pretty (n : Z) : Py.int (pretty n) = inr n.
Proof.
  destruct n as [|p|p]; [reflexivity| |].
  - change (pretty (Z.pos p)) with (pretty_N_go (N.pos p) "").
    now rewrite int_pretty_go by lia.
  - change (pretty (Z.neg p)) with (String "-" (pretty_N_go (N.pos p) "")).
    destruct (pretty_go_head (N.pos p) "" ltac:(lia)) as (d & r & Hd & Heq).
    destruct (pretty_char_digit d Hd) as (Hdig & _).
    unfold Py.int. cbn [Py.lstrip]. change (Py.is_space "-") with false.
    cbn beta iota. rewrite Heq at 1. cbn [Py.starts_with_digit].
    rewrite bool_decide_eq_true_2 by (rewrite Hdig; eauto).
    destruct (int_digits_pretty (N.pos p)) as (k & _ & ->).
    cbn. reflexivity.
Qed.

(** X13. Setting [ETH_TX_RECENT_BLOCKS] to the decimal text of an integer
    [n], as Python prints it, makes a completed run report
    [blocks_scanned = n] and request the window [max(0, L-n+1)..L] for the
    head [L] it reports. *)
Theorem decimal_block_count HexBytes_hex network
    (environ : gmap string string) fs tr fs' res n :
  environ !! "ETH_TX_RECENT_BLOCKS" = Some (pretty n) ->
  ethereum_transactions_recent HexBytes_hex network environ fs
  = (tr, fs', inr res) ->
  blocks_scanned res = n
  /\ fetched_blocks tr
     = Py.range (Z.max 0 (latest_block res - n + 1)) (latest_block res + 1).
Proof.
  intros Hn Hrun.
  destruct (run_inr_ex _ _ _ _ _ _ _ Hrun) as (url & N & L & Hurl & HN & HL).
  assert (N = n) as ->.
  { unfold Py.getenv in HN. rewrite Hn, int_pretty in HN. congruence. }
  destruct (run_inr _ _ _ _ _ _ _ _ _ _ Hurl HN HL Hrun)
    as (_ & Hf & _ & _ & ->).
  cbn. auto.
Qed.

(** ** The further properties on the demo chains *)

Lemma bad_block_count_witness :
  Demo.asset (Demo.environ "http://node:8545" "ten") Demo.fs3
  = ([], Demo.fs3, inl (ValueError "ten")).
Proof.
  apply (bad_block_count Demo.hex Demo.network
           (Demo.environ "http://node:8545" "ten") Demo.fs3
           "http://node:8545" (ValueError "ten"));
    vm_compute; reflexivity.
Defined.

Lemma abort_leaves_files_witness :
  exists tr,
    Demo2.big_asset (Demo.environ "http://big:8545" "1") Demo.stale_fs
    = (tr, made_dirs Demo.stale_fs, inl OverflowError)
    /\ files (made_dirs Demo.stale_fs) = files Demo.stale_fs.
Proof.
  destruct (Demo2.big_asset (Demo.environ "http://big:8545" "1") Demo.stale_fs)
    as [[tr fs'] [x|res]] eqn:Hrun; [|vm_compute in Hrun; discriminate].
  assert (x = OverflowError) as -> by (vm_compute in Hrun; congruence).
  destruct (abort_leaves_files Demo.hex (fun _ => Demo2.big_node)
              (Demo.environ "http://big:8545" "1") Demo.stale_fs tr fs'
              OverflowError ltac:(vm_compute; reflexivity) Hrun)
    as (Hfiles & _ & Hdirs).
  exists tr. rewrite (Hdirs eq_refl). split; reflexivity.
Defined.

Lemma request_discipline_witness :
  exists tr rest,
    Demo.asset (Demo.environ "http://flaky:8545" "3") Demo.empty_fs
    = (tr, Demo.empty_fs, inl (ProviderError RpcTimeout))
    /\ tr = RpcBlockNumber (inr 100)
              :: LogInfo (Fetching (Z.max 0 (100 - 3 + 1)) 100) :: rest
    /\ Forall in_loop rest
    /\ fetched_blocks tr `prefix_of` Py.range (Z.max 0 (100 - 3 + 1)) (100 + 1)
    /\ NoDup (fetched_blocks tr)
    /\ Forall (fun n => 0 <= n <= 100) (fetched_blocks tr).
Proof.
  destruct (Demo.asset (Demo.environ "http://flaky:8545" "3") Demo.empty_fs)
    as [[tr fs'] r] eqn:Hrun.
  destruct (request_discipline Demo.hex Demo.network
              (Demo.environ "http://flaky:8545" "3") Demo.empty_fs
              "http://flaky:8545" 3 100 tr fs' r
              ltac:(vm_compute; reflexivity) ltac:(vm_compute; reflexivity)
              ltac:(reflexivity) Hrun) as (rest & Hshape).
  exists tr, rest. split; [|exact Hshape].
  pose proof Hrun as Hval. vm_compute in Hval. injection Hval as _ <- <-.
  reflexivity.
Defined.

Lemma progress_lines_witness :
  exists tr fs' res,
    Demo.asset (Demo.environ "http://node:8545" "10") Demo.empty_fs
    = (tr, fs', inr res)
    /\ processed_logs tr = [(95, 0%nat); (100, 7%nat)].
Proof.
  destruct (Demo.asset (Demo.environ "http://node:8545" "10") Demo.empty_fs)
    as [[tr fs'] [x|res]] eqn:Hrun; [vm_compute in Hrun; discriminate|].
  exists tr, fs', res. split; [reflexivity|].
  rewrite (progress_lines Demo.hex Demo.network
             (Demo.environ "http://node:8545" "10") Demo.empty_fs
             "http://node:8545" 10 100 tr fs' res
             ltac:(vm_compute; reflexivity) ltac:(vm_compute; reflexivity)
             ltac:(reflexivity) Hrun).
  vm_compute. reflexivity.
Defined.

Lemma preview_head_witness :
  exists rows,
    files Demo.fs3 !! file Demo.result3 = Some rows
    /\ (preview Demo.result3 = NoRows <-> rows = [])
    /\ (preview Demo.result3 = NoRows <-> num_transactions Demo.result3 = 0%nat)
    /\ forall p, preview Demo.result3 = Head p ->
         p = take 10 rows /\ p `prefix_of` rows
         /\ length p = Nat.min 10 (num_transactions Demo.result3)
         /\ p <> [].
Proof.
  apply (preview_head Demo.hex Demo.network
           (Demo.environ "http://node:8545" "3") Demo.empty_fs Demo.trace3).
  vm_compute. reflexivity.
Defined.

Lemma other_files_untouched_witness :
  exists tr fs' res,
    Demo.asset (Demo.environ "http://genesis:8545" "10") Demo.fs3
    = (tr, fs', inr res)
    /\ dirs Demo.fs3 ⊆ dirs fs'
    /\ (forall p, is_Some (files Demo.fs3 !! p) -> is_Some (files fs' !! p))
    /\ forall res0, @inr exn _ res = inr res0 ->
         (forall p, p <> file res0 -> files fs' !! p = files Demo.fs3 !! p)
         /\ is_Some (files fs' !! file res0)
         /\ dirs fs'
            = {[ "data"; "data/ethereum"; "data/ethereum/transactions" ]}
                ∪ dirs Demo.fs3.
Proof.
  destruct (Demo.asset (Demo.environ "http://genesis:8545" "10") Demo.fs3)
    as [[tr fs'] [x|res]] eqn:Hrun; [vm_compute in Hrun; discriminate|].
  exists tr, fs', res. split; [reflexivity|].
  apply (other_files_untouched Demo.hex Demo.network
           (Demo.environ "http://genesis:8545" "10") Demo.fs3 tr fs' (inr res)
           Hrun).
Defined.

Lemma scanned_versus_fetched_witness :
  exists tr fs' res,
    Demo.asset (Demo.environ "http://genesis:8545" "10") Demo.empty_fs
    = (tr, fs', inr res)
    /\ Z.of_nat (length (fetched_blocks tr)) = Z.max 0 (Z.min 10 (1 + 1))
    /\ (blocks_scanned res = Z.of_nat (length (fetched_blocks tr))
        <-> 0 <= 10 <= 1 + 1).
Proof.
  destruct (Demo.asset (Demo.environ "http://genesis:8545" "10") Demo.empty_fs)
    as [[tr fs'] [x|res]] eqn:Hrun; [vm_compute in Hrun; discriminate|].
  exists tr, fs', res. split; [reflexivity|].
  apply (scanned_versus_fetched Demo.hex Demo.network
           (Demo.environ "http://genesis:8545" "10") Demo.empty_fs
           "http://genesis:8545" 10 1 tr fs' res
           ltac:(vm_compute; reflexivity) ltac:(vm_compute; reflexivity)
           ltac:(reflexivity) Hrun).
  lia.
Defined.

Lemma wider_window_witness :
  exists tr fs' res tr' fs'' res' rows rows' older,
    Demo2.fee_asset (Demo.environ "http://fees:8545" "1") Demo.empty_fs
    = (tr, fs', inr res)
    /\ Demo2.fee_asset (Demo.environ "http://fees:8545" "2") Demo.empty_fs
       = (tr', fs'', inr res')
    /\ file res' = file res
    /\ files fs' !! file res = Some rows
    /\ files fs'' !! file res' = Some rows'
    /\ rows' = older ++ map (coerce_row true true) rows
    /\ map max_fee_per_gas rows = [IntCell 5]
    /\ map max_fee_per_gas rows'
       = [Float64 9007199254740992; Null; Float64 5].
Proof.
  destruct (Demo2.fee_asset (Demo.environ "http://fees:8545" "1") Demo.empty_fs)
    as [[tr fs'] [x|res]] eqn:Hrun; [vm_compute in Hrun; discriminate|].
  destruct (Demo2.fee_asset (Demo.environ "http://fees:8545" "2") Demo.empty_fs)
    as [[tr' fs''] [x|res']] eqn:Hrun'; [vm_compute in Hrun'; discriminate|].
  destruct (wider_window Demo.hex (fun _ => Demo2.fee_node)
              (Demo.environ "http://fees:8545" "1")
              (Demo.environ "http://fees:8545" "2")
              Demo.empty_fs Demo.empty_fs "http://fees:8545" 1 2 3
              tr tr' fs' fs'' res res')
    as (Hfile & rows & rows' & older & g1 & g2 & Hr & Hr' & Happ & Hg1 & Hg2 & _);
    [vm_compute; reflexivity | vm_compute; reflexivity
    | vm_compute; reflexivity | vm_compute; reflexivity | reflexivity
    | exact Hrun | exact Hrun' | lia |].
  exists tr, fs', res, tr', fs'', res', rows, rows', older.
  split; [reflexivity|]. split; [reflexivity|]. split; [exact Hfile|].
  split; [exact Hr|]. split; [exact Hr'|].
  vm_compute in Hrun. injection Hrun as _ <- <-.
  vm_compute in Hrun'. injection Hrun' as _ <- <-.
  vm_compute in Hr. injection Hr as <-.
  vm_compute in Hr'. injection Hr' as <-.
  assert (g1 = true) as -> by (rewrite Hg1; reflexivity).
  assert (g2 = true) as -> by (rewrite Hg2; reflexivity).
  split; [exact Happ|]. split; reflexivity.
Defined.

Lemma out_path_inj_witness : 100 = 100.
Proof. apply (out_path_inj 100 100). reflexivity. Defined.

Lemma distinct_heads_keep_both_witness :
  exists tr2 fs2 res2,
    Demo.asset (Demo.environ "http://genesis:8545" "10") Demo.fs3
    = (tr2, fs2, inr res2)
    /\ file Demo.result3 <> file res2
    /\ files fs2 !! file Demo.result3 = files Demo.fs3 !! file Demo.result3
    /\ is_Some (files fs2 !! file Demo.result3)
    /\ is_Some (files fs2 !! file res2).
Proof.
  destruct (Demo.asset (Demo.environ "http://genesis:8545" "10") Demo.fs3)
    as [[tr2 fs2] [x|res2]] eqn:Hrun2; [vm_compute in Hrun2; discriminate|].
  exists tr2, fs2, res2. split; [reflexivity|].
  apply (distinct_heads_keep_both Demo.hex Demo.network Demo.network
           (Demo.environ "http://node:8545" "3")
           (Demo.environ "http://genesis:8545" "10")
           Demo.empty_fs Demo.trace3 Demo.fs3 Demo.result3 tr2 fs2 res2);
    [vm_compute; reflexivity | exact Hrun2 |].
  vm_compute in Hrun2. injection Hrun2 as _ _ <-. discriminate.
Defined.

Lemma decimal_block_count_witness :
  blocks_scanned Demo.result3 = 3
  /\ fetched_blocks Demo.trace3
     = Py.range (Z.max 0 (latest_block Demo.result3 - 3 + 1))
         (latest_block Demo.result3 + 1).
Proof.
  apply (decimal_block_count Demo.hex Demo.network
           (Demo.environ "http://node:8545" (pretty 3)) Demo.empty_fs
           Demo.trace3 Demo.fs3 Demo.result3 3);
    vm_compute; reflexivity.
Defined.
